(** * Verification of crossplane's ccrd package (apis/apiextensions/v1alpha1/ccrd/crd.go)

    Shallow embedding of [ForCompositeResource], [ForCompositeResourceClaim],
    [validateClaimNames], [getSpecProps] and [IsEstablished].

    Modelling choices:
    - Go maps ([map[string]T]) are stdpp [gmap]s; a map that may be nil is an
      [option] ([None] is the nil map: it reads as empty, writing into it panics).
    - Go slices are headers [{ptr; len; cap}] into an explicit heap, so that
      [append] writes into spare capacity exactly as Go does.  String slices and
      printer-column slices live in two separate heaps (Go typing keeps their
      backing arrays apart).
    - Results are [Ok], [Err] (a returned Go error) or [Panic].
    - [encoding/json.Unmarshal] and the schema/printer-column tables of
      schemas.go are parameters of the section [Generate]. *)

From stdpp Require Import base gmap strings list.
From Stdlib Require Import Ascii.

Local Set Warnings "-register-all".
Local Open Scope string_scope.

(** ** Errors and outcomes *)

(** [errors.New] / [errors.Errorf] produce [EMsg]; [errors.Wrap(err, msg)]
    produces [EWrap err msg], whose message is [msg ++ ": " ++ err.Error()]. *)
Inductive error :=
| EMsg (msg : string)
| EWrap (cause : error) (msg : string).

Fixpoint Error (e : error) : string :=
  match e with
  | EMsg m => m
  | EWrap c m => m ++ ": " ++ Error c
  end.

Inductive outcome (A : Type) :=
| Ok (a : A)
| Err (e : error)
| Panic (msg : string).
Arguments Ok {A} a.
Arguments Err {A} e.
Arguments Panic {A} msg.

Definition is_ok {A} (o : outcome A) : bool :=
  match o with Ok _ => true | _ => false end.

Definition is_panic {A} (o : outcome A) : bool :=
  match o with Panic _ => true | _ => false end.

Definition is_nil {A} (p : option A) : bool :=
  match p with None => true | Some _ => false end.

(** ** Error strings of crd.go, lines 43-49 *)

Definition errGetSpecProps := "cannot get spec properties from validation schema".
Definition errParseValidation := "cannot parse validation schema".
Definition errInvalidClaimNames := "invalid resource claim names".
Definition errMissingClaimNames := "missing names".
Definition errFmtConflictingClaimName_suffix := " conflicts with composite resource name".

Definition CategoryClaim := "claim".
Definition CategoryComposite := "composite".

(** ** Go's [%q] verb ([strconv.Quote])

    [errors.Errorf(errFmtConflictingClaimName, n)] formats the claim value with
    [%q].  Which runes [strconv.Quote] escapes depends on the Unicode tables of
    [strconv.IsPrint], which are not modelled: the functions that format with
    [%q] take it as a parameter [fmt_q], and every theorem about them holds for
    any [fmt_q].  [quote_ascii] below is [strconv.Quote] on ASCII strings, where
    no table is involved; it instantiates [fmt_q] for the concrete inputs,
    which are all ASCII. *)

Definition dquote : string := String (ascii_of_nat 34) EmptyString.
Definition bslash : string := String (ascii_of_nat 92) EmptyString.

Definition hex_digit (n : nat) : string :=
  String (ascii_of_nat (if Nat.ltb n 10 then 48 + n else 87 + n)) EmptyString.

(** One ASCII byte of the quoted string: printable ASCII is kept, the quote and
    the backslash are escaped, the C escapes are used for control characters
    and [\xNN] for the other control bytes (including DEL).  Bytes of 128 and
    above are outside the domain of [quote_ascii] (they are copied, which is not
    what [strconv.Quote] does for every such byte). *)
Definition quote_byte (c : ascii) : string :=
  let n := nat_of_ascii c in
  if Nat.eqb n 34 then bslash ++ dquote
  else if Nat.eqb n 92 then bslash ++ bslash
  else if Nat.leb 32 n && Nat.ltb n 127 then String c EmptyString
  else if Nat.eqb n 7 then bslash ++ "a"
  else if Nat.eqb n 8 then bslash ++ "b"
  else if Nat.eqb n 12 then bslash ++ "f"
  else if Nat.eqb n 10 then bslash ++ "n"
  else if Nat.eqb n 13 then bslash ++ "r"
  else if Nat.eqb n 9 then bslash ++ "t"
  else if Nat.eqb n 11 then bslash ++ "v"
  else if Nat.ltb n 128 then bslash ++ "x" ++ hex_digit (n / 16) ++ hex_digit (n mod 16)
  else String c EmptyString.

Fixpoint quote_bytes (s : string) : string :=
  match s with
  | EmptyString => EmptyString
  | String c s' => quote_byte c ++ quote_bytes s'
  end.

Definition quote_ascii (s : string) : string := dquote ++ quote_bytes s ++ dquote.

(** [errors.Errorf(errFmtConflictingClaimName, n)], for [%q] given by [fmt_q] *)
Definition conflicting_claim_name (fmt_q : string -> string) (n : string) : error :=
  EMsg (fmt_q n ++ errFmtConflictingClaimName_suffix).

(** ** Heap of slice backing arrays *)

Definition loc := nat.

Record slice := MkSlice { s_ptr : loc; s_len : nat; s_cap : nat }.

(** A nil slice. *)
Definition nil_slice : slice := MkSlice 0 0 0.

(** The elements a slice reads, [s[0]] to [s[len-1]]; [None] is a cell never
    written (Go's zero value). *)
Definition slice_read {A} (m : gmap loc A) (s : slice) : list (option A) :=
  (fun j => m !! (s_ptr s + j)) <$> seq 0 (s_len s).

Fixpoint store_cells {A} (m : gmap loc A) (a : loc) (xs : list A) : gmap loc A :=
  match xs with
  | [] => m
  | x :: xs' => store_cells (<[a := x]> m) (S a) xs'
  end.

(** [copy(dst[0:n], src[0:n])] with memmove semantics: every cell is read
    from the heap [m0] before the copy; zero cells are copied as zero cells. *)
Fixpoint copy_cells {A} (m0 m : gmap loc A) (src dst : loc) (n : nat) : gmap loc A :=
  match n with
  | 0 => m
  | S n' => copy_cells m0 (partial_alter (fun _ => m0 !! src) dst m) (S src) (S dst) n'
  end.

(** Capacity chosen by [runtime.growslice] (Go 1.15): the needed length if it
    exceeds twice the old capacity, twice the old capacity below 1024
    elements, otherwise growth by a quarter until the needed length fits.
    The rounding up to the allocator's size classes is not modelled. *)
Fixpoint grow_quarter (fuel newcap needed : nat) : nat :=
  match fuel with
  | 0 => newcap
  | S f => if Nat.leb needed newcap then newcap
           else grow_quarter f (newcap + newcap / 4) needed
  end.

Definition growslice_cap (old_len old_cap needed : nat) : nat :=
  if Nat.ltb (2 * old_cap) needed then needed
  else if Nat.ltb old_len 1024 then 2 * old_cap
  else grow_quarter needed old_cap needed.

(** [append(s, xs...)] on a heap [m] whose next free address is [next]:
    in place when the capacity suffices, otherwise into a new backing array. *)
Definition go_append {A} (m : gmap loc A) (next : loc) (s : slice) (xs : list A)
  : gmap loc A * loc * slice :=
  let n := length xs in
  if Nat.leb (s_len s + n) (s_cap s) then
    (store_cells m (s_ptr s + s_len s) xs, next, MkSlice (s_ptr s) (s_len s + n) (s_cap s))
  else
    let newcap := growslice_cap (s_len s) (s_cap s) (s_len s + n) in
    let m1 := copy_cells m m (s_ptr s) next (s_len s) in
    (store_cells m1 (next + s_len s) xs, next + newcap, MkSlice next (s_len s + n) newcap).

(** A heap for each element type of the slices the package appends to, with one
    allocation pointer. *)
Record CustomResourceColumnDefinition := MkColumn {
  col_Name : string;
  col_Type : string;
  col_JSONPath : string;
  col_Description : string
}.

Record heap := MkHeap {
  h_str : gmap loc string;
  h_col : gmap loc CustomResourceColumnDefinition;
  h_next : loc
}.

Definition append_str (h : heap) (s : slice) (xs : list string) : heap * slice :=
  let '(m, nx, s') := go_append (h_str h) (h_next h) s xs in
  (MkHeap m (h_col h) nx, s').

Definition append_col (h : heap) (s : slice) (xs : list CustomResourceColumnDefinition)
  : heap * slice :=
  let '(m, nx, s') := go_append (h_col h) (h_next h) s xs in
  (MkHeap (h_str h) m nx, s').

(** ** API types *)

(** [extv1.JSONSchemaProps], reduced to its [Type] and [Properties] fields;
    [Properties] is a Go map, nil when absent. *)
Inductive JSONSchemaProps :=
  MkJSONSchemaProps (Type_ : string) (Properties : option (gmap string JSONSchemaProps)).

Definition props_Type (s : JSONSchemaProps) : string :=
  match s with MkJSONSchemaProps t _ => t end.

Definition props_Properties (s : JSONSchemaProps) : option (gmap string JSONSchemaProps) :=
  match s with MkJSONSchemaProps _ p => p end.

(** [m[k]] on a possibly nil map, with the comma-ok form. *)
Definition map_get {V} (m : option (gmap string V)) (k : string) : option V :=
  m ≫= (fun m' => m' !! k).

(** [for k, v := range m]: the entries visited (a nil map has none). *)
Definition range_of {V} (m : option (gmap string V)) : list (string * V) :=
  match m with None => [] | Some m' => map_to_list m' end.

(** [extv1.CustomResourceDefinitionNames] *)
Record CRDNames := MkNames {
  Plural : string;
  Singular : string;
  ShortNames : slice;
  Kind : string;
  ListKind : string;
  Categories : slice
}.

Record OwnerReference := MkOwnerReference {
  or_APIVersion : string;
  or_Kind : string;
  or_Name : string;
  or_UID : string;
  or_Controller : option bool;
  or_BlockOwnerDeletion : option bool
}.

Record ObjectMeta := MkObjectMeta {
  om_Name : string;
  om_UID : string;
  om_Labels : gmap string string;
  om_Annotations : gmap string string;
  om_OwnerReferences : list OwnerReference
}.

(** [v1alpha1.CompositeResourceDefinitionVersion]; [xv_Schema] is the pointer
    [Schema *CompositeResourceValidation], given by its raw bytes
    [OpenAPIV3Schema.Raw]. *)
Record XRDVersion := MkXRDVersion {
  xv_Name : string;
  xv_Referenceable : bool;
  xv_Served : bool;
  xv_Schema : option string;
  xv_AdditionalPrinterColumns : slice
}.

Record XRDSpec := MkXRDSpec {
  Group : string;
  Names : CRDNames;
  ClaimNames : option CRDNames;
  Versions : list XRDVersion
}.

Record CompositeResourceDefinition := MkXRD {
  xrd_Meta : ObjectMeta;
  xrd_Spec : XRDSpec
}.

Inductive ResourceScope := ClusterScoped | NamespaceScoped.

Record CRDVersion := MkCRDVersion {
  cv_Name : string;
  cv_Served : bool;
  cv_Storage : bool;
  cv_AdditionalPrinterColumns : slice;
  cv_Schema : JSONSchemaProps;
  cv_StatusSubresource : bool
}.

Record CRDSpec := MkCRDSpec {
  crd_Scope : ResourceScope;
  crd_Group : string;
  crd_Names : CRDNames;
  crd_Versions : list CRDVersion
}.

Record CustomResourceDefinition := MkCRD {
  crd_Meta : ObjectMeta;
  crd_Spec : CRDSpec
}.

Record CustomResourceDefinitionCondition := MkCondition {
  cond_Type : string;
  cond_Status : string
}.

Definition Established := "Established".
Definition ConditionTrue := "True".

(** ** [IsEstablished], crd.go lines 211-218 *)

Fixpoint IsEstablished (conds : list CustomResourceDefinitionCondition) : bool :=
  match conds with
  | [] => false
  | c :: cs =>
      if String.eqb (cond_Type c) Established
      then String.eqb (cond_Status c) ConditionTrue
      else IsEstablished cs
  end.

(** ** [validateClaimNames], crd.go lines 167-189 ([None] is a nil error) *)

Definition validateClaimNames (fmt_q : string -> string) (d : CompositeResourceDefinition)
  : option error :=
  match ClaimNames (xrd_Spec d) with
  | None => Some (EMsg errMissingClaimNames)
  | Some cn =>
      let xn := Names (xrd_Spec d) in
      if String.eqb (Kind cn) (Kind xn) then Some (conflicting_claim_name fmt_q (Kind cn))
      else if String.eqb (Plural cn) (Plural xn) then Some (conflicting_claim_name fmt_q (Plural cn))
      else if negb (String.eqb (Singular cn) "") && String.eqb (Singular cn) (Singular xn)
      then Some (conflicting_claim_name fmt_q (Singular cn))
      else if negb (String.eqb (ListKind cn) "") && String.eqb (ListKind cn) (ListKind xn)
      then Some (conflicting_claim_name fmt_q (ListKind cn))
      else None
  end.

(** [meta.AsController(meta.TypedReferenceTo(xrd, CompositeResourceDefinitionGroupVersionKind))]
    of the crossplane-runtime this package builds against: the reference's
    API version, kind, name and UID, [Controller] set to true, and
    [BlockOwnerDeletion] left nil (the pointer fields [*bool] are options). *)
Definition controller_ref (d : CompositeResourceDefinition) : OwnerReference :=
  MkOwnerReference "apiextensions.crossplane.io/v1alpha1" "CompositeResourceDefinition"
    (om_Name (xrd_Meta d)) (om_UID (xrd_Meta d)) (Some true) None.

(** Modelled from the spec: [BaseProps] (schemas.go, not in the sources), the
    fixed minimal property set of every generated schema: [apiVersion] and
    [kind] strings, a [metadata] object, and [spec] and [status] objects whose
    property maps start empty. *)
Definition BaseProps : gmap string JSONSchemaProps :=
  <["apiVersion" := MkJSONSchemaProps "string" None]> (
  <["kind" := MkJSONSchemaProps "string" None]> (
  <["metadata" := MkJSONSchemaProps "object" None]> (
  <["spec" := MkJSONSchemaProps "object" (Some ∅)]> (
  <["status" := MkJSONSchemaProps "object" (Some ∅)]> ∅)))).

(** [crd.Spec.Versions[i].Schema.OpenAPIV3Schema.Properties[key].Properties[k] = v]:
    the entry [key] is read (a copy of the struct, sharing its map) and its map
    is written; a missing entry or a nil map panics. *)
Definition set_sub (top : gmap string JSONSchemaProps) (key k : string) (v : JSONSchemaProps)
  : outcome (gmap string JSONSchemaProps) :=
  match top !! key with
  | Some (MkJSONSchemaProps t (Some m)) => Ok (<[key := MkJSONSchemaProps t (Some (<[k := v]> m))]> top)
  | _ => Panic "assignment to entry in nil map"
  end.

(** [for k, v := range layer { ...Properties[key].Properties[k] = v }] *)
Fixpoint range_assign (top : gmap string JSONSchemaProps) (key : string)
  (layer : list (string * JSONSchemaProps)) : outcome (gmap string JSONSchemaProps) :=
  match layer with
  | [] => Ok top
  | (k, v) :: l =>
      match set_sub top key k v with
      | Ok top' => range_assign top' key l
      | Err e => Err e
      | Panic m => Panic m
      end
  end.

Section Generate.

(** [json.Unmarshal(raw, &extv1.JSONSchemaProps{})]: the decoded schema or the
    decoding error. *)
Variable unmarshal : string -> JSONSchemaProps + error.

(** The synthesized tables of schemas.go: printer columns and spec properties
    for composites and claims, and the status properties shared by both. *)
Variable CompositeResourcePrinterColumns : list CustomResourceColumnDefinition.
Variable CompositeResourceClaimPrinterColumns : list CustomResourceColumnDefinition.
Variable CompositeResourceSpecProps : gmap string JSONSchemaProps.
Variable CompositeResourceClaimSpecProps : gmap string JSONSchemaProps.
Variable CompositeResourceStatusProps : gmap string JSONSchemaProps.

(** fmt's [%q] verb. *)
Variable fmt_q : string -> string.

(** [getSpecProps], crd.go lines 191-207 ([Ok None] is a nil map). *)
Definition getSpecProps (v : option string) : outcome (option (gmap string JSONSchemaProps)) :=
  match v with
  | None => Ok None
  | Some raw =>
      match unmarshal raw with
      | inr err => Err (EWrap err errParseValidation)
      | inl s =>
          match map_get (props_Properties s) "spec" with
          | None => Ok None
          | Some spec => Ok (props_Properties spec)
          end
      end
  end.

(** The body of the version loop (crd.go lines 73-101 and 133-161), for the
    printer columns [cols] and the spec properties [specProps] of the variant. *)
Definition projectVersion (cols : list CustomResourceColumnDefinition)
  (specProps : gmap string JSONSchemaProps) (h : heap) (vr : XRDVersion)
  : heap * outcome CRDVersion :=
  let '(h1, pcs) := append_col h (xv_AdditionalPrinterColumns vr) cols in
  (h1,
   match getSpecProps (xv_Schema vr) with
   | Err e => Err (EWrap e errGetSpecProps)
   | Panic m => Panic m
   | Ok p =>
       match range_assign BaseProps "spec" (range_of p) with
       | Ok t1 =>
           match range_assign t1 "spec" (map_to_list specProps) with
           | Ok t2 =>
               match range_assign t2 "status" (map_to_list CompositeResourceStatusProps) with
               | Ok t3 =>
                   Ok (MkCRDVersion (xv_Name vr) (xv_Served vr) (xv_Referenceable vr) pcs
                         (MkJSONSchemaProps "object" (Some t3)) true)
               | Err e => Err e
               | Panic m => Panic m
               end
           | Err e => Err e
           | Panic m => Panic m
           end
       | Err e => Err e
       | Panic m => Panic m
       end
   end).

(** [for i, vr := range xrd.Spec.Versions { ... }], returning on the first error. *)
Fixpoint projectVersions (cols : list CustomResourceColumnDefinition)
  (specProps : gmap string JSONSchemaProps) (h : heap) (vs : list XRDVersion)
  : heap * outcome (list CRDVersion) :=
  match vs with
  | [] => (h, Ok [])
  | vr :: vs' =>
      let '(h1, o) := projectVersion cols specProps h vr in
      match o with
      | Ok cv =>
          let '(h2, o2) := projectVersions cols specProps h1 vs' in
          (h2, match o2 with
               | Ok cvs => Ok (cv :: cvs)
               | Err e => Err e
               | Panic m => Panic m
               end)
      | Err e => (h1, Err e)
      | Panic m => (h1, Panic m)
      end
  end.

(** [ForCompositeResource], crd.go lines 53-105, for a non-nil [xrd] (see
    [ForCompositeResourcePtr] for the pointer). *)
Definition ForCompositeResource (h : heap) (xrd : CompositeResourceDefinition)
  : heap * outcome CustomResourceDefinition :=
  let names := Names (xrd_Spec xrd) in
  let '(h1, cats) := append_str h (Categories names) [CategoryComposite] in
  let '(h2, ovs) := projectVersions CompositeResourcePrinterColumns
                      CompositeResourceSpecProps h1 (Versions (xrd_Spec xrd)) in
  (h2,
   match ovs with
   | Ok vs =>
       Ok (MkCRD
             (MkObjectMeta (om_Name (xrd_Meta xrd)) "" (om_Labels (xrd_Meta xrd))
                (om_Annotations (xrd_Meta xrd)) [controller_ref xrd])
             (MkCRDSpec ClusterScoped (Group (xrd_Spec xrd))
                (MkNames (Plural names) (Singular names) (ShortNames names)
                   (Kind names) (ListKind names) cats)
                vs))
   | Err e => Err e
   | Panic m => Panic m
   end).

(** [ForCompositeResourceClaim], crd.go lines 109-165, for a non-nil [xrd]
    (see [ForCompositeResourceClaimPtr] for the pointer). *)
Definition ForCompositeResourceClaim (h : heap) (xrd : CompositeResourceDefinition)
  : heap * outcome CustomResourceDefinition :=
  match validateClaimNames fmt_q xrd with
  | Some err => (h, Err (EWrap err errInvalidClaimNames))
  | None =>
      match ClaimNames (xrd_Spec xrd) with
      | None => (h, Panic "invalid memory address or nil pointer dereference")
      | Some names =>
          let '(h1, cats) := append_str h (Categories names) [CategoryClaim] in
          let '(h2, ovs) := projectVersions CompositeResourceClaimPrinterColumns
                              CompositeResourceClaimSpecProps h1 (Versions (xrd_Spec xrd)) in
          (h2,
           match ovs with
           | Ok vs =>
               Ok (MkCRD
                     (MkObjectMeta (Plural names ++ "." ++ Group (xrd_Spec xrd)) ""
                        (om_Labels (xrd_Meta xrd)) (om_Annotations (xrd_Meta xrd))
                        [controller_ref xrd])
                     (MkCRDSpec NamespaceScoped (Group (xrd_Spec xrd))
                        (MkNames (Plural names) (Singular names) (ShortNames names)
                           (Kind names) (ListKind names) cats)
                        vs))
           | Err e => Err e
           | Panic m => Panic m
           end)
      end
  end.

(** The entry points as Go declares them, on a [*v1alpha1.CompositeResourceDefinition]
    ([None] is nil).  A nil pointer panics at its first field access, before
    anything is written: [xrd.Spec.Group] (line 56) in [ForCompositeResource],
    [d.Spec.ClaimNames] (line 168, in [validateClaimNames]) in
    [ForCompositeResourceClaim]. *)
Definition ForCompositeResourcePtr (h : heap) (p : option CompositeResourceDefinition)
  : heap * outcome CustomResourceDefinition :=
  match p with
  | None => (h, Panic "invalid memory address or nil pointer dereference")
  | Some xrd => ForCompositeResource h xrd
  end.

Definition ForCompositeResourceClaimPtr (h : heap) (p : option CompositeResourceDefinition)
  : heap * outcome CustomResourceDefinition :=
  match p with
  | None => (h, Panic "invalid memory address or nil pointer dereference")
  | Some xrd => ForCompositeResourceClaim h xrd
  end.

(** The layering of section 4.3, for the parsed caller properties [p] and the
    variant's spec table: the caller's spec properties, then the synthesized
    spec properties, both over the base [spec] properties, and the status
    properties over the base [status] properties; the other base entries stay. *)
Definition base_sub (key : string) : gmap string JSONSchemaProps :=
  match BaseProps !! key with
  | Some (MkJSONSchemaProps _ (Some m)) => m
  | _ => ∅
  end.

Definition layered_props (p : option (gmap string JSONSchemaProps))
  (specProps : gmap string JSONSchemaProps) : gmap string JSONSchemaProps :=
  <["status" := MkJSONSchemaProps "object" (Some (CompositeResourceStatusProps ∪ base_sub "status"))]>
  (<["spec" := MkJSONSchemaProps "object"
                 (Some (specProps ∪ (from_option id ∅ p ∪ base_sub "spec")))]> BaseProps).

(** All version schemas are absent or decode. *)
Definition schemas_decode (vs : list XRDVersion) : bool :=
  forallb (fun vr => is_ok (getSpecProps (xv_Schema vr))) vs.

End Generate.

(** ** Concrete inputs used by the witnesses and counterexamples *)

(** A JSON decoder fixed at three documents, where it agrees with
    [encoding/json]: the empty document fails ("unexpected end of JSON input"),
    [{}] decodes to the zero schema, and [example_schema_doc] decodes to a
    schema whose spec declares one string property [foo].  Every other document
    is reported as malformed; the lemmas below use it only at these three. *)
Definition q (s : string) : string := dquote ++ s ++ dquote.

Definition example_schema_doc : string :=
  "{" ++ q "properties" ++ ":{" ++ q "spec" ++ ":{" ++ q "properties" ++ ":{"
      ++ q "foo" ++ ":{" ++ q "type" ++ ":" ++ q "string" ++ "}}}}}".

Definition foo_prop : JSONSchemaProps := MkJSONSchemaProps "string" None.

Definition example_unmarshal (raw : string) : JSONSchemaProps + error :=
  if String.eqb raw "" then inr (EMsg "unexpected end of JSON input")
  else if String.eqb raw "{}" then inl (MkJSONSchemaProps "" None)
  else if String.eqb raw example_schema_doc then
    inl (MkJSONSchemaProps "" (Some {[ "spec" := MkJSONSchemaProps "" (Some {[ "foo" := foo_prop ]}) ]}))
  else inr (EMsg "invalid character").

Definition example_columns : list CustomResourceColumnDefinition :=
  [MkColumn "READY" "string" ".status.conditions[?(@.type=='Ready')].status" "";
   MkColumn "AGE" "date" ".metadata.creationTimestamp" ""].

Definition example_claim_columns : list CustomResourceColumnDefinition :=
  [MkColumn "READY" "string" ".status.conditions[?(@.type=='Ready')].status" ""].

Definition example_spec_props : gmap string JSONSchemaProps :=
  {[ "compositionRef" := MkJSONSchemaProps "object" None;
     "foo" := MkJSONSchemaProps "integer" None ]}.

Definition example_claim_spec_props : gmap string JSONSchemaProps :=
  {[ "resourceRef" := MkJSONSchemaProps "object" None ]}.

Definition example_status_props : gmap string JSONSchemaProps :=
  {[ "conditions" := MkJSONSchemaProps "array" None ]}.

Definition empty_heap : heap := MkHeap ∅ ∅ 0.

Definition example_names : CRDNames :=
  MkNames "xpostgresqlinstances" "xpostgresqlinstance" nil_slice
    "XPostgreSQLInstance" "XPostgreSQLInstanceList" nil_slice.

Definition example_claim_names : CRDNames :=
  MkNames "postgresqlinstances" "postgresqlinstance" nil_slice
    "PostgreSQLInstance" "PostgreSQLInstanceList" nil_slice.

Definition example_meta : ObjectMeta :=
  MkObjectMeta "xpostgresqlinstances.database.example.org" "uid-1" ∅ ∅ [].

Definition example_xrd (claims : option CRDNames) (vs : list XRDVersion) : CompositeResourceDefinition :=
  MkXRD example_meta (MkXRDSpec "database.example.org" example_names claims vs).

Definition example_version (name : string) (referenceable : bool) (schema : option string) : XRDVersion :=
  MkXRDVersion name referenceable true schema nil_slice.

(** Claim names whose kind equals the composite's kind. *)
Definition kind_conflict_xrd : CompositeResourceDefinition :=
  example_xrd (Some (MkNames "postgresqlinstances" "postgresqlinstance" nil_slice
                        "XPostgreSQLInstance" "PostgreSQLInstanceList" nil_slice)) [].

(** No claim names, and a version whose schema is the empty (malformed) document. *)
Definition unnamed_malformed_xrd : CompositeResourceDefinition :=
  example_xrd None [example_version "v1alpha1" true (Some "")].

(** Valid claim names, and two versions: one decodable schema, one malformed. *)
Definition named_malformed_xrd : CompositeResourceDefinition :=
  example_xrd (Some example_claim_names)
    [example_version "v1alpha1" false (Some example_schema_doc);
     example_version "v1beta1" true (Some "")].

(** Valid claim names, and two versions: one with a schema, one without. *)
Definition well_formed_xrd : CompositeResourceDefinition :=
  example_xrd (Some example_claim_names)
    [example_version "v1alpha1" false (Some example_schema_doc);
     example_version "v1beta1" true None].

(** Names whose category list and short-name list are two windows of one Go
    array ([arr := []string{"all", "xpg"}]; [Categories: arr[0:1]],
    [ShortNames: arr[1:2]]), so the category list has spare capacity that the
    short names occupy; the claim names are laid out the same way. *)
Definition aliased_heap : heap :=
  MkHeap {[ 0 := "all"; 1 := "xpg"; 2 := "all"; 3 := "pg" ]} ∅ 4.

Definition aliased_xrd : CompositeResourceDefinition :=
  MkXRD example_meta
    (MkXRDSpec "database.example.org"
       (MkNames "xpostgresqlinstances" "xpostgresqlinstance" (MkSlice 1 1 1)
          "XPostgreSQLInstance" "XPostgreSQLInstanceList" (MkSlice 0 1 2))
       (Some (MkNames "postgresqlinstances" "postgresqlinstance" (MkSlice 3 1 1)
                "PostgreSQLInstance" "PostgreSQLInstanceList" (MkSlice 2 1 2)))
       []).

(** ** Claim-name validation as the specification words it (section 4.1) *)

Inductive claim_name_failure :=
| MissingClaimNames
| NameConflict (field value : string).

(** The checks in order: field, claim value, composite value, whether checked. *)
Definition claim_name_checks (cn xn : CRDNames) : list (string * string * string * bool) :=
  [("kind", Kind cn, Kind xn, true);
   ("plural", Plural cn, Plural xn, true);
   ("singular", Singular cn, Singular xn, negb (String.eqb (Singular cn) ""));
   ("listKind", ListKind cn, ListKind xn, negb (String.eqb (ListKind cn) ""))].

Definition validate_claim_names_spec (d : CompositeResourceDefinition) : option claim_name_failure :=
  match ClaimNames (xrd_Spec d) with
  | None => Some MissingClaimNames
  | Some cn =>
      match List.find (fun '(_, c, x, checked) => checked && String.eqb c x)
              (claim_name_checks cn (Names (xrd_Spec d))) with
      | Some (f, c, _, _) => Some (NameConflict f c)
      | None => None
      end
  end.

(** The Go error each failure is reported as. *)
Definition failure_error (fmt_q : string -> string) (f : claim_name_failure) : error :=
  match f with
  | MissingClaimNames => EMsg errMissingClaimNames
  | NameConflict _ v => conflicting_claim_name fmt_q v
  end.

(** Whether [needle] occurs in [hay]. *)
Definition contains (needle hay : string) : bool :=
  match String.index 0 needle hay with Some _ => true | None => false end.

(** ** Backing arrays of the input's slices *)

(** The cells [s_ptr s] to [s_ptr s + s_cap s - 1] are the backing array
    of [s]; its spare capacity are the cells past its length. *)
Definition slice_end (s : slice) : loc := s_ptr s + s_cap s.

Definition in_spare (s : slice) (l : loc) : bool :=
  Nat.leb (s_ptr s + s_len s) l && Nat.ltb l (slice_end s).

Definition arrays_apart (a b : slice) : bool :=
  Nat.leb (slice_end a) (s_ptr b) || Nat.leb (slice_end b) (s_ptr a).

(** A well-formed slice ([len <= cap]) whose array lies below the allocation
    pointer [next]. *)
Definition array_allocated (next : loc) (s : slice) : bool :=
  Nat.leb (s_len s) (s_cap s) && Nat.leb (slice_end s) next.

Definition columns_allocated (next : loc) (vs : list XRDVersion) : bool :=
  forallb (fun vr => array_allocated next (xv_AdditionalPrinterColumns vr)) vs.

(** No two versions' printer-column lists share cells of their arrays. *)
Fixpoint columns_separate (vs : list XRDVersion) : bool :=
  match vs with
  | [] => true
  | vr :: vs' =>
      forallb (fun vr' => arrays_apart (xv_AdditionalPrinterColumns vr)
                                       (xv_AdditionalPrinterColumns vr')) vs'
      && columns_separate vs'
  end.

(** Two versions with printer columns in two arrays: the first list fills its
    array ([arr1[0:1]], capacity 1), the second has one spare cell
    ([arr2[0:1]], capacity 2). *)
Definition columns_heap : heap :=
  MkHeap ∅ {[ 0 := MkColumn "SIZE" "string" ".spec.storageGB" "";
              1 := MkColumn "ENGINE" "string" ".spec.engine" "" ]} 3.

Definition columns_xrd : CompositeResourceDefinition :=
  example_xrd (Some example_claim_names)
    [MkXRDVersion "v1alpha1" false true None (MkSlice 0 1 1);
     MkXRDVersion "v1beta1" true true (Some example_schema_doc) (MkSlice 1 1 2)].

(** ** Proofs *)

(** *** Status conditions *)

(** C3: [IsEstablished] is true exactly when the first condition of type
    "Established" has status "True"; it is false on an empty list, on a list
    without such a condition, and when that condition's status is not "True". *)
Theorem IsEstablished_first_established (conds : list CustomResourceDefinitionCondition) :
  (IsEstablished conds = true <->
   exists pre c post, conds = (pre ++ c :: post)%list /\
     Forall (fun c' => cond_Type c' <> Established) pre /\
     cond_Type c = Established /\ cond_Status c = ConditionTrue) /\
  IsEstablished [] = false.
Proof.
  split; [|reflexivity].
  induction conds as [|c cs IH]; simpl.
  - split; [discriminate|].
    intros (pre & c & post & Heq & _). destruct pre; discriminate.
  - destruct (String.eqb_spec (cond_Type c) Established) as [Ht|Ht].
    + rewrite String.eqb_eq. split.
      * intros Hs. exists [], c, cs. auto.
      * intros (pre & c' & post & Heq & Hpre & Ht' & Hs').
        destruct pre as [|c0 pre]; simpl in Heq; injection Heq as -> ->; [exact Hs'|].
        inversion Hpre; contradiction.
    + rewrite IH. split.
      * intros (pre & c' & post & -> & Hpre & Ht' & Hs').
        exists (c :: pre), c', post. simpl. auto.
      * intros (pre & c' & post & Heq & Hpre & Ht' & Hs').
        destruct pre as [|c0 pre]; simpl in Heq; injection Heq as -> ->.
        -- contradiction.
        -- inversion Hpre; subst. exists pre, c', post. auto.
Qed.

(** *** Claim-name validation *)

Lemma validateClaimNames_eq_spec (fmt_q : string -> string) (d : CompositeResourceDefinition) :
  validateClaimNames fmt_q d = option_map (failure_error fmt_q) (validate_claim_names_spec d).
Proof.
  unfold validateClaimNames, validate_claim_names_spec, claim_name_checks.
  destruct (ClaimNames (xrd_Spec d)) as [cn|]; [|reflexivity]. simpl.
  destruct (String.eqb (Kind cn) (Kind (Names (xrd_Spec d)))); simpl; [reflexivity|].
  destruct (String.eqb (Plural cn) (Plural (Names (xrd_Spec d)))); simpl; [reflexivity|].
  destruct (negb (String.eqb (Singular cn) "") && String.eqb (Singular cn) (Singular (Names (xrd_Spec d))));
    simpl; [reflexivity|].
  destruct (negb (String.eqb (ListKind cn) "") && String.eqb (ListKind cn) (ListKind (Names (xrd_Spec d))));
    reflexivity.
Qed.

Lemma validate_claim_names_spec_field (d : CompositeResourceDefinition) (f v : string) :
  validate_claim_names_spec d = Some (NameConflict f v) ->
  In f ["kind"; "plural"; "singular"; "listKind"].
Proof.
  intros Hs. unfold validate_claim_names_spec, claim_name_checks in Hs.
  destruct (ClaimNames (xrd_Spec d)); [|discriminate]. simpl in Hs.
  repeat match type of Hs with
  | context [if ?b then _ else _] => destruct b
  end; try discriminate; injection Hs as <- _; simpl; tauto.
Qed.

(** C5: [validateClaimNames] reports exactly the failure the specification's
    ordered, short-circuiting checks find (missing claim names, else the first
    of kind, plural, non-empty singular, non-empty listKind equal to the
    composite's), whatever [%q] does; it reports a missing name set exactly
    when there is none.  It is a function of the definition alone (no heap),
    so it has no effects. *)
Theorem validateClaimNames_spec (fmt_q : string -> string) (d : CompositeResourceDefinition) :
  validateClaimNames fmt_q d = option_map (failure_error fmt_q) (validate_claim_names_spec d) /\
  (validate_claim_names_spec d = Some MissingClaimNames <-> ClaimNames (xrd_Spec d) = None).
Proof.
  split; [apply validateClaimNames_eq_spec|].
  unfold validate_claim_names_spec, claim_name_checks.
  destruct (ClaimNames (xrd_Spec d)) as [cn|]; [|tauto].
  simpl.
  destruct (String.eqb (Kind cn) (Kind (Names (xrd_Spec d)))); simpl;
    [split; discriminate|].
  destruct (String.eqb (Plural cn) (Plural (Names (xrd_Spec d)))); simpl;
    [split; discriminate|].
  destruct (negb (String.eqb (Singular cn) "") && String.eqb (Singular cn) (Singular (Names (xrd_Spec d)))); simpl;
    [split; discriminate|].
  destruct (negb (String.eqb (ListKind cn) "") && String.eqb (ListKind cn) (ListKind (Names (xrd_Spec d)))); simpl;
    split; discriminate.
Qed.

(** *** Heap lemmas *)

Lemma store_cells_lookup {A} (m : gmap loc A) (a : loc) (xs : list A) (l : loc) :
  store_cells m a xs !! l =
  if decide (a <= l < a + length xs) then xs !! (l - a) else m !! l.
Proof.
  revert m a. induction xs as [|x xs IH]; intros m a; simpl.
  - destruct (decide _); [lia|reflexivity].
  - rewrite IH. destruct (decide (S a <= l < S a + length xs)).
    + destruct (decide (a <= l < a + S (length xs))); [|lia].
      replace (l - a) with (S (l - S a)) by lia. reflexivity.
    + destruct (decide (a <= l < a + S (length xs))).
      * assert (l = a) as -> by lia. rewrite Nat.sub_diag. apply lookup_insert_eq.
      * rewrite lookup_insert_ne by lia. reflexivity.
Qed.

Lemma copy_cells_lookup {A} (m0 m : gmap loc A) (src dst n : nat) (l : loc) :
  copy_cells m0 m src dst n !! l =
  if decide (dst <= l < dst + n) then m0 !! (src + (l - dst)) else m !! l.
Proof.
  revert m src dst. induction n as [|n IH]; intros m src dst; simpl.
  - destruct (decide _); [lia|reflexivity].
  - rewrite IH. destruct (decide (S dst <= l < S dst + n)).
    + destruct (decide (dst <= l < dst + S n)); [|lia]. f_equal. lia.
    + destruct (decide (dst <= l < dst + S n)).
      * assert (l = dst) as -> by lia. rewrite lookup_partial_alter_eq.
        f_equal. lia.
      * rewrite lookup_partial_alter_ne by lia. reflexivity.
Qed.

Lemma fmap_seq_cells {A} (f : nat -> option A) (len : nat) (xs : list A) :
  (forall j, j < length xs -> f (len + j) = xs !! j) ->
  f <$> seq len (length xs) = Some <$> xs.
Proof.
  intros H. apply list_eq. intros j. rewrite !list_lookup_fmap.
  destruct (decide (j < length xs)).
  - rewrite lookup_seq_lt by lia. simpl. rewrite H by lia.
    destruct (xs !! j) eqn:E; [reflexivity|]. apply lookup_ge_None in E. lia.
  - rewrite lookup_seq_ge by lia. rewrite (proj2 (lookup_ge_None xs j)) by lia. reflexivity.
Qed.

Lemma fmap_seq_ext {A} (f g : nat -> option A) (start n : nat) :
  (forall j, start <= j < start + n -> f j = g j) ->
  f <$> seq start n = g <$> seq start n.
Proof.
  intros H. apply list_eq. intros j. rewrite !list_lookup_fmap.
  destruct (decide (j < n)).
  - rewrite lookup_seq_lt by lia. simpl. rewrite H by lia. reflexivity.
  - rewrite lookup_seq_ge by lia. reflexivity.
Qed.

(** After [s' = append(s, xs...)], [s'] reads what [s] read followed by [xs]. *)
Lemma go_append_read {A} (m : gmap loc A) (next : loc) (s : slice) (xs : list A) :
  let '(m', _, s') := go_append m next s xs in
  slice_read m' s' = (slice_read m s ++ (Some <$> xs))%list.
Proof.
  unfold go_append, slice_read. destruct (Nat.leb _ _); simpl.
  - rewrite seq_app, fmap_app. f_equal.
    + apply fmap_seq_ext. intros j Hj. rewrite store_cells_lookup.
      destruct (decide _); [lia|reflexivity].
    + apply fmap_seq_cells. intros j Hj. rewrite store_cells_lookup.
      destruct (decide _); [|lia]. f_equal. lia.
  - rewrite seq_app, fmap_app. f_equal.
    + apply fmap_seq_ext. intros j Hj. rewrite store_cells_lookup.
      destruct (decide _); [lia|]. rewrite copy_cells_lookup.
      destruct (decide _); [|lia]. f_equal. lia.
    + apply fmap_seq_cells. intros j Hj. rewrite store_cells_lookup.
      destruct (decide _); [|lia]. f_equal. lia.
Qed.

Ltac nat_bools :=
  unfold in_spare, arrays_apart, array_allocated, slice_end in *;
  repeat match goal with
  | |- context [Nat.leb ?a ?b] => destruct (Nat.leb_spec a b)
  | |- context [Nat.ltb ?a ?b] => destruct (Nat.ltb_spec a b)
  | H : context [Nat.leb ?a ?b] |- _ => destruct (Nat.leb_spec a b)
  | H : context [Nat.ltb ?a ?b] |- _ => destruct (Nat.ltb_spec a b)
  end; simpl in *; try discriminate; try lia.

Lemma grow_quarter_ge (f c n : nat) :
  4 <= c -> n <= c + f -> n <= grow_quarter f c n.
Proof.
  revert c. induction f as [|f IH]; intros c Hc Hn; cbn [grow_quarter]; [lia|].
  destruct (Nat.leb_spec n c); [lia|].
  assert (4 / 4 <= c / 4) by (apply Nat.Div0.div_le_mono; lia).
  change (4 / 4) with 1 in *. apply IH; lia.
Qed.

(** [growslice] always returns a capacity that holds the needed length. *)
Lemma growslice_cap_ge (len cap needed : nat) :
  len <= needed -> needed <= growslice_cap len cap needed.
Proof.
  intros Hl. unfold growslice_cap.
  destruct (Nat.ltb_spec (2 * cap) needed); [lia|].
  destruct (Nat.ltb_spec len 1024); [lia|].
  apply grow_quarter_ge; lia.
Qed.

(** What [append] writes and where its result lives: the allocation pointer
    only grows; below the old pointer only the spare capacity of [s] changes;
    the result is in the array of [s] or in the fresh region it allocated. *)
Lemma go_append_cases {A} (m : gmap loc A) (next : loc) (s : slice) (xs : list A) :
  let '(m', next', s') := go_append m next s xs in
  next <= next' /\ s_len s' = s_len s + length xs /\
  (forall l, l < next -> in_spare s l = false -> m' !! l = m !! l) /\
  ((s_ptr s' = s_ptr s /\ s_len s' <= s_cap s) \/ (s_ptr s' = next /\ next + s_len s' <= next')).
Proof.
  unfold go_append. destruct (Nat.leb_spec (s_len s + length xs) (s_cap s)); simpl.
  - split; [lia|]. split; [reflexivity|]. split; [|left; split; [reflexivity|lia]].
    intros l Hl Hs. rewrite store_cells_lookup. destruct (decide _); [|reflexivity].
    nat_bools.
  - pose proof (growslice_cap_ge (s_len s) (s_cap s) (s_len s + length xs) ltac:(lia)).
    split; [lia|]. split; [reflexivity|]. split; [|right; split; [reflexivity|lia]].
    intros l Hl _. rewrite store_cells_lookup. destruct (decide _); [lia|].
    rewrite copy_cells_lookup. destruct (decide _); [lia|reflexivity].
Qed.

Lemma apart_not_spare (a b : slice) (l : loc) :
  arrays_apart a b = true -> s_ptr a <= l < slice_end a -> in_spare b l = false.
Proof. intros H Hl. nat_bools. Qed.

Lemma apart_not_spare_r (a b : slice) (l : loc) :
  arrays_apart a b = true -> s_ptr b <= l < slice_end b -> in_spare a l = false.
Proof. intros H Hl. nat_bools. Qed.

Lemma columns_allocated_mono (n n' : loc) (vs : list XRDVersion) :
  n <= n' -> columns_allocated n vs = true -> columns_allocated n' vs = true.
Proof.
  intros Hn. unfold columns_allocated. rewrite !forallb_forall.
  intros H vr Hin. specialize (H vr Hin). nat_bools.
Qed.

Lemma Forall2_impl_in {A B} (P Q : A -> B -> Prop) (l : list A) (k : list B) :
  Forall2 P l k -> (forall x y, In x l -> P x y -> Q x y) -> Forall2 Q l k.
Proof.
  induction 1 as [|x y l k Hxy _ IH]; intros HQ; constructor.
  - apply HQ; [left; reflexivity|exact Hxy].
  - apply IH. intros x' y' Hin. apply HQ. right. exact Hin.
Qed.

Section GenerateProofs.

Variable unmarshal : string -> JSONSchemaProps + error.
Variable CompositeResourcePrinterColumns : list CustomResourceColumnDefinition.
Variable CompositeResourceClaimPrinterColumns : list CustomResourceColumnDefinition.
Variable CompositeResourceSpecProps : gmap string JSONSchemaProps.
Variable CompositeResourceClaimSpecProps : gmap string JSONSchemaProps.
Variable CompositeResourceStatusProps : gmap string JSONSchemaProps.
Variable fmt_q : string -> string.

Lemma range_assign_ok (top : gmap string JSONSchemaProps) (key t : string)
  (m : gmap string JSONSchemaProps) (l : list (string * JSONSchemaProps)) :
  top !! key = Some (MkJSONSchemaProps t (Some m)) -> NoDup l.*1 ->
  range_assign top key l = Ok (<[key := MkJSONSchemaProps t (Some (list_to_map l ∪ m))]> top).
Proof.
  revert top m. induction l as [|[k v] l IH]; intros top m Htop Hnd; simpl.
  - rewrite (left_id_L ∅ (∪) m).
    rewrite insert_id by exact Htop. reflexivity.
  - unfold set_sub. rewrite Htop.
    inversion Hnd as [|? ? Hk Hnd']; subst.
    rewrite (IH _ (<[k:=v]> m)); [|apply lookup_insert_eq|exact Hnd'].
    rewrite insert_insert_eq. do 3 f_equal.
    rewrite <- insert_union_r by (apply not_elem_of_list_to_map_1; exact Hk).
    f_equal. apply insert_union_l.
Qed.

Lemma range_of_nodup (p : option (gmap string JSONSchemaProps)) :
  NoDup (range_of p).*1.
Proof. destruct p; simpl; [apply NoDup_fst_map_to_list|constructor]. Qed.

Lemma range_of_to_map (p : option (gmap string JSONSchemaProps)) :
  list_to_map (range_of p) = from_option id ∅ p.
Proof. destruct p; simpl; [apply list_to_map_to_list|reflexivity]. Qed.

Lemma BaseProps_spec : BaseProps !! "spec" = Some (MkJSONSchemaProps "object" (Some ∅)).
Proof. reflexivity. Qed.

Lemma BaseProps_status : BaseProps !! "status" = Some (MkJSONSchemaProps "object" (Some ∅)).
Proof. reflexivity. Qed.

Lemma projectVersion_eq (cols : list CustomResourceColumnDefinition)
  (sp : gmap string JSONSchemaProps) (h : heap) (vr : XRDVersion) :
  projectVersion unmarshal CompositeResourceStatusProps cols sp h vr =
  (fst (append_col h (xv_AdditionalPrinterColumns vr) cols),
   match getSpecProps unmarshal (xv_Schema vr) with
   | Ok p => Ok (MkCRDVersion (xv_Name vr) (xv_Served vr) (xv_Referenceable vr)
                  (snd (append_col h (xv_AdditionalPrinterColumns vr) cols))
                  (MkJSONSchemaProps "object"
                     (Some (layered_props CompositeResourceStatusProps p sp))) true)
   | Err e => Err (EWrap e errGetSpecProps)
   | Panic m => Panic m
   end).
Proof.
  unfold projectVersion. destruct (append_col h _ cols) as [h1 pcs]. simpl.
  destruct (getSpecProps unmarshal (xv_Schema vr)) as [p|e|msg]; try reflexivity.
  rewrite (range_assign_ok _ _ _ _ _ BaseProps_spec (range_of_nodup p)).
  rewrite (range_assign_ok _ "spec" "object" (list_to_map (range_of p) ∪ ∅));
    [|apply lookup_insert_eq|apply NoDup_fst_map_to_list].
  rewrite (range_assign_ok _ "status" "object" ∅);
    [|rewrite lookup_insert_ne by discriminate;
      rewrite lookup_insert_ne by discriminate; exact BaseProps_status
     |apply NoDup_fst_map_to_list].
  rewrite !list_to_map_to_list, range_of_to_map, insert_insert_eq.
  reflexivity.
Qed.

Lemma getSpecProps_not_panic (v : option string) (msg : string) :
  getSpecProps unmarshal v <> Panic msg.
Proof.
  unfold getSpecProps. destruct v; [|discriminate].
  destruct (unmarshal s); [|discriminate].
  destruct (map_get _ _); discriminate.
Qed.

Lemma projectVersions_cases (cols : list CustomResourceColumnDefinition)
  (sp : gmap string JSONSchemaProps) (h : heap) (vs : list XRDVersion) :
  h_str (fst (projectVersions unmarshal CompositeResourceStatusProps cols sp h vs)) = h_str h /\
  is_ok (snd (projectVersions unmarshal CompositeResourceStatusProps cols sp h vs))
    = schemas_decode unmarshal vs /\
  match snd (projectVersions unmarshal CompositeResourceStatusProps cols sp h vs) with
  | Ok cvs =>
      Forall2 (fun vr cv =>
        cv_Name cv = xv_Name vr /\ cv_Served cv = xv_Served vr /\
        cv_Storage cv = xv_Referenceable vr /\ cv_StatusSubresource cv = true /\
        exists p, getSpecProps unmarshal (xv_Schema vr) = Ok p /\
          cv_Schema cv = MkJSONSchemaProps "object"
                           (Some (layered_props CompositeResourceStatusProps p sp))) vs cvs
  | Err e =>
      exists pre vr post e0, vs = (pre ++ vr :: post)%list /\
        schemas_decode unmarshal pre = true /\
        getSpecProps unmarshal (xv_Schema vr) = Err e0 /\ e = EWrap e0 errGetSpecProps
  | Panic _ => False
  end.
Proof.
  revert h. induction vs as [|vr vs IH]; intros h; simpl.
  - auto.
  - rewrite projectVersion_eq.
    destruct (getSpecProps unmarshal (xv_Schema vr)) as [p|e|msg] eqn:Hg.
    + destruct (projectVersions unmarshal CompositeResourceStatusProps cols sp
                  (fst (append_col h (xv_AdditionalPrinterColumns vr) cols)) vs)
        as [h2 o2] eqn:Hrest.
      specialize (IH (fst (append_col h (xv_AdditionalPrinterColumns vr) cols))).
      rewrite Hrest in IH. simpl in IH |- *. destruct IH as (Hs & Hok & IH).
      split; [rewrite Hs; unfold append_col; destruct go_append as [[? ?] ?]; reflexivity|].
      destruct o2 as [cvs|e|msg]; simpl in *.
      * split; [exact Hok|]. constructor; [|exact IH].
        repeat split. exists p. auto.
      * split; [exact Hok|].
        destruct IH as (pre & vr' & post & e0 & -> & Hpre & He0 & ->).
        exists (vr :: pre), vr', post, e0. simpl. rewrite Hg, Hpre. auto.
      * contradiction.
    + simpl. split; [unfold append_col; destruct go_append as [[? ?] ?]; reflexivity|].
      split; [reflexivity|]. exists [], vr, vs, e. auto.
    + exfalso. exact (getSpecProps_not_panic _ _ Hg).
Qed.

Lemma ForCompositeResource_eq (h : heap) (xrd : CompositeResourceDefinition) :
  let '(h1, cats) := append_str h (Categories (Names (xrd_Spec xrd))) [CategoryComposite] in
  ForCompositeResource unmarshal CompositeResourcePrinterColumns CompositeResourceSpecProps
    CompositeResourceStatusProps h xrd =
  (fst (projectVersions unmarshal CompositeResourceStatusProps CompositeResourcePrinterColumns
          CompositeResourceSpecProps h1 (Versions (xrd_Spec xrd))),
   match snd (projectVersions unmarshal CompositeResourceStatusProps CompositeResourcePrinterColumns
                CompositeResourceSpecProps h1 (Versions (xrd_Spec xrd))) with
   | Ok vs =>
       Ok (MkCRD
             (MkObjectMeta (om_Name (xrd_Meta xrd)) "" (om_Labels (xrd_Meta xrd))
                (om_Annotations (xrd_Meta xrd)) [controller_ref xrd])
             (MkCRDSpec ClusterScoped (Group (xrd_Spec xrd))
                (MkNames (Plural (Names (xrd_Spec xrd))) (Singular (Names (xrd_Spec xrd)))
                   (ShortNames (Names (xrd_Spec xrd))) (Kind (Names (xrd_Spec xrd)))
                   (ListKind (Names (xrd_Spec xrd))) cats)
                vs))
   | Err e => Err e
   | Panic m => Panic m
   end).
Proof.
  unfold ForCompositeResource. destruct (append_str _ _ _) as [h1 cats].
  destruct (projectVersions _ _ _ _ _ _) as [h2 o]. reflexivity.
Qed.

Lemma ForCompositeResourceClaim_eq (h : heap) (xrd : CompositeResourceDefinition) (names : CRDNames) :
  validateClaimNames fmt_q xrd = None -> ClaimNames (xrd_Spec xrd) = Some names ->
  let '(h1, cats) := append_str h (Categories names) [CategoryClaim] in
  ForCompositeResourceClaim unmarshal CompositeResourceClaimPrinterColumns
    CompositeResourceClaimSpecProps CompositeResourceStatusProps fmt_q h xrd =
  (fst (projectVersions unmarshal CompositeResourceStatusProps CompositeResourceClaimPrinterColumns
          CompositeResourceClaimSpecProps h1 (Versions (xrd_Spec xrd))),
   match snd (projectVersions unmarshal CompositeResourceStatusProps CompositeResourceClaimPrinterColumns
                CompositeResourceClaimSpecProps h1 (Versions (xrd_Spec xrd))) with
   | Ok vs =>
       Ok (MkCRD
             (MkObjectMeta (Plural names ++ "." ++ Group (xrd_Spec xrd)) ""
                (om_Labels (xrd_Meta xrd)) (om_Annotations (xrd_Meta xrd))
                [controller_ref xrd])
             (MkCRDSpec NamespaceScoped (Group (xrd_Spec xrd))
                (MkNames (Plural names) (Singular names) (ShortNames names)
                   (Kind names) (ListKind names) cats)
                vs))
   | Err e => Err e
   | Panic m => Panic m
   end).
Proof.
  intros Hv Hc. unfold ForCompositeResourceClaim. rewrite Hv, Hc.
  destruct (append_str _ _ _) as [h1 cats].
  destruct (projectVersions _ _ _ _ _ _) as [h2 o]. reflexivity.
Qed.

Lemma validateClaimNames_some_names (xrd : CompositeResourceDefinition) :
  validateClaimNames fmt_q xrd = None -> exists names, ClaimNames (xrd_Spec xrd) = Some names.
Proof.
  unfold validateClaimNames. destruct (ClaimNames (xrd_Spec xrd)); [eauto|discriminate].
Qed.

Lemma ForCompositeResource_ok_inv (h h' : heap) (xrd : CompositeResourceDefinition)
  (crd : CustomResourceDefinition) :
  ForCompositeResource unmarshal CompositeResourcePrinterColumns CompositeResourceSpecProps
    CompositeResourceStatusProps h xrd = (h', Ok crd) ->
  exists h1 cats,
    append_str h (Categories (Names (xrd_Spec xrd))) [CategoryComposite] = (h1, cats) /\
    projectVersions unmarshal CompositeResourceStatusProps CompositeResourcePrinterColumns
      CompositeResourceSpecProps h1 (Versions (xrd_Spec xrd)) = (h', Ok (crd_Versions (crd_Spec crd))) /\
    crd_Meta crd = MkObjectMeta (om_Name (xrd_Meta xrd)) "" (om_Labels (xrd_Meta xrd))
                     (om_Annotations (xrd_Meta xrd)) [controller_ref xrd] /\
    crd_Scope (crd_Spec crd) = ClusterScoped /\
    crd_Names (crd_Spec crd) =
      MkNames (Plural (Names (xrd_Spec xrd))) (Singular (Names (xrd_Spec xrd)))
        (ShortNames (Names (xrd_Spec xrd))) (Kind (Names (xrd_Spec xrd)))
        (ListKind (Names (xrd_Spec xrd))) cats.
Proof.
  pose proof (ForCompositeResource_eq h xrd) as Heq.
  destruct (append_str h _ _) as [h1 cats] eqn:Ha. rewrite Heq.
  destruct (projectVersions _ _ _ _ h1 _) as [h2 [vs|e|m]] eqn:Hpv; simpl; intros H; inversion H; subst.
  exists h1, cats. simpl. repeat split; first [assumption | reflexivity].
Qed.

Lemma ForCompositeResourceClaim_ok_inv (h h' : heap) (xrd : CompositeResourceDefinition)
  (crd : CustomResourceDefinition) :
  ForCompositeResourceClaim unmarshal CompositeResourceClaimPrinterColumns
    CompositeResourceClaimSpecProps CompositeResourceStatusProps fmt_q h xrd = (h', Ok crd) ->
  exists names h1 cats,
    validateClaimNames fmt_q xrd = None /\ ClaimNames (xrd_Spec xrd) = Some names /\
    append_str h (Categories names) [CategoryClaim] = (h1, cats) /\
    projectVersions unmarshal CompositeResourceStatusProps CompositeResourceClaimPrinterColumns
      CompositeResourceClaimSpecProps h1 (Versions (xrd_Spec xrd)) = (h', Ok (crd_Versions (crd_Spec crd))) /\
    crd_Meta crd = MkObjectMeta (Plural names ++ "." ++ Group (xrd_Spec xrd)) ""
                     (om_Labels (xrd_Meta xrd)) (om_Annotations (xrd_Meta xrd)) [controller_ref xrd] /\
    crd_Scope (crd_Spec crd) = NamespaceScoped /\
    crd_Names (crd_Spec crd) =
      MkNames (Plural names) (Singular names) (ShortNames names) (Kind names) (ListKind names) cats.
Proof.
  destruct (validateClaimNames fmt_q xrd) eqn:Hv.
  - unfold ForCompositeResourceClaim. rewrite Hv. discriminate.
  - destruct (validateClaimNames_some_names xrd Hv) as [names Hc].
    pose proof (ForCompositeResourceClaim_eq h xrd names Hv Hc) as Heq.
    destruct (append_str h _ _) as [h1 cats] eqn:Ha. rewrite Heq.
    destruct (projectVersions _ _ _ _ h1 _) as [h2 [vs|e|m]] eqn:Hpv; simpl; intros H; inversion H; subst.
    exists names, h1, cats. simpl. repeat split; first [assumption | reflexivity].
Qed.

Lemma layered_props_lookups (p : option (gmap string JSONSchemaProps))
  (sp : gmap string JSONSchemaProps) :
  let props := layered_props CompositeResourceStatusProps p sp in
  props !! "spec" = Some (MkJSONSchemaProps "object" (Some (sp ∪ (from_option id ∅ p ∪ base_sub "spec")))) /\
  props !! "status" = Some (MkJSONSchemaProps "object" (Some (CompositeResourceStatusProps ∪ base_sub "status"))) /\
  (forall k, k <> "spec" -> k <> "status" -> props !! k = BaseProps !! k).
Proof.
  unfold layered_props. split; [|split].
  - rewrite lookup_insert_ne by discriminate. apply lookup_insert_eq.
  - apply lookup_insert_eq.
  - intros k Hs Ht. rewrite !lookup_insert_ne by congruence. reflexivity.
Qed.

Lemma projectVersions_ok_lookup (cols : list CustomResourceColumnDefinition)
  (sp : gmap string JSONSchemaProps) (h h' : heap) (vs : list XRDVersion) (cvs : list CRDVersion) :
  projectVersions unmarshal CompositeResourceStatusProps cols sp h vs = (h', Ok cvs) ->
  length cvs = length vs /\
  forall i vr, vs !! i = Some vr -> exists cv, cvs !! i = Some cv /\
    cv_Name cv = xv_Name vr /\ cv_Served cv = xv_Served vr /\
    cv_Storage cv = xv_Referenceable vr /\ cv_StatusSubresource cv = true /\
    exists p, getSpecProps unmarshal (xv_Schema vr) = Ok p /\
      cv_Schema cv = MkJSONSchemaProps "object" (Some (layered_props CompositeResourceStatusProps p sp)).
Proof.
  intros Hp. destruct (projectVersions_cases cols sp h vs) as (_ & _ & Hc).
  rewrite Hp in Hc. simpl in Hc. split.
  - symmetry. exact (Forall2_length _ _ _ Hc).
  - intros i vr Hi. destruct (Forall2_lookup_l _ _ _ _ _ Hc Hi) as (cv & Hcv & HP).
    exists cv. auto.
Qed.

(** *** Claim-name conflicts *)

(** C4 (as amended): when the claim names are present and validation finds a
    conflict, the error message is the offending claim value formatted by
    [%q] followed by " conflicts with composite resource name", and
    [ForCompositeResourceClaim] returns that error wrapped, with the message
    "invalid resource claim names: " followed by it (and writes nothing).
    This holds for whatever [%q] does; the message is built from the value
    alone, so which field conflicted does not enter it. *)
Theorem validateClaimNames_conflict_message (h : heap) (d : CompositeResourceDefinition) (e : error)
  (Hv : validateClaimNames fmt_q d = Some e) (Hc : ClaimNames (xrd_Spec d) <> None) :
  exists f v, validate_claim_names_spec d = Some (NameConflict f v) /\
    In f ["kind"; "plural"; "singular"; "listKind"] /\
    Error e = fmt_q v ++ errFmtConflictingClaimName_suffix /\
    ForCompositeResourceClaim unmarshal CompositeResourceClaimPrinterColumns
      CompositeResourceClaimSpecProps CompositeResourceStatusProps fmt_q h d
    = (h, Err (EWrap e errInvalidClaimNames)) /\
    Error (EWrap e errInvalidClaimNames)
    = errInvalidClaimNames ++ ": " ++ fmt_q v ++ errFmtConflictingClaimName_suffix.
Proof.
  assert (Hf : ForCompositeResourceClaim unmarshal CompositeResourceClaimPrinterColumns
                 CompositeResourceClaimSpecProps CompositeResourceStatusProps fmt_q h d
               = (h, Err (EWrap e errInvalidClaimNames))).
  { unfold ForCompositeResourceClaim. rewrite Hv. reflexivity. }
  rewrite validateClaimNames_eq_spec in Hv.
  destruct (validate_claim_names_spec d) as [[|f v]|] eqn:Hs; simpl in Hv; try discriminate.
  - exfalso. apply Hc. unfold validate_claim_names_spec in Hs.
    destruct (ClaimNames (xrd_Spec d)); [|reflexivity].
    destruct (List.find _ _) as [[[[? ?] ?] ?]|]; discriminate.
  - injection Hv as <-. exists f, v.
    split; [reflexivity|]. split; [exact (validate_claim_names_spec_field d f v Hs)|].
    split; [reflexivity|]. split; [exact Hf|reflexivity].
Qed.

(** *** Schema assembly *)

(** C1: in every generated version (of either entry point) the schema is the
    base schema with, under "spec", the caller's parsed spec properties and
    then the variant's synthesized spec properties merged in (a later layer
    wins on a shared key), and, under "status", the synthesized status
    properties; spec layers touch only "spec", the status layer only "status",
    and the other base entries are unchanged. *)
Theorem version_schema_layers :
  (forall h h' xrd crd i vr cv,
     ForCompositeResource unmarshal CompositeResourcePrinterColumns CompositeResourceSpecProps
       CompositeResourceStatusProps h xrd = (h', Ok crd) ->
     Versions (xrd_Spec xrd) !! i = Some vr ->
     crd_Versions (crd_Spec crd) !! i = Some cv ->
     exists p props spec status,
       getSpecProps unmarshal (xv_Schema vr) = Ok p /\
       cv_Schema cv = MkJSONSchemaProps "object" (Some props) /\
       props !! "spec" = Some (MkJSONSchemaProps "object" (Some spec)) /\
       props !! "status" = Some (MkJSONSchemaProps "object" (Some status)) /\
       spec = CompositeResourceSpecProps ∪ (from_option id ∅ p ∪ base_sub "spec") /\
       status = CompositeResourceStatusProps ∪ base_sub "status" /\
       (forall k, k <> "spec" -> k <> "status" -> props !! k = BaseProps !! k) /\
       (forall k v, CompositeResourceSpecProps !! k = Some v -> spec !! k = Some v)) /\
  (forall h h' xrd crd i vr cv,
     ForCompositeResourceClaim unmarshal CompositeResourceClaimPrinterColumns
       CompositeResourceClaimSpecProps CompositeResourceStatusProps fmt_q h xrd = (h', Ok crd) ->
     Versions (xrd_Spec xrd) !! i = Some vr ->
     crd_Versions (crd_Spec crd) !! i = Some cv ->
     exists p props spec status,
       getSpecProps unmarshal (xv_Schema vr) = Ok p /\
       cv_Schema cv = MkJSONSchemaProps "object" (Some props) /\
       props !! "spec" = Some (MkJSONSchemaProps "object" (Some spec)) /\
       props !! "status" = Some (MkJSONSchemaProps "object" (Some status)) /\
       spec = CompositeResourceClaimSpecProps ∪ (from_option id ∅ p ∪ base_sub "spec") /\
       status = CompositeResourceStatusProps ∪ base_sub "status" /\
       (forall k, k <> "spec" -> k <> "status" -> props !! k = BaseProps !! k) /\
       (forall k v, CompositeResourceClaimSpecProps !! k = Some v -> spec !! k = Some v)).
Proof.
  split.
  - intros h h' xrd crd i vr cv Hf Hi Hcv.
    destruct (ForCompositeResource_ok_inv _ _ _ _ Hf) as (h1 & cats & _ & Hp & _).
    destruct (projectVersions_ok_lookup _ _ _ _ _ _ Hp) as (_ & Hl).
    destruct (Hl i vr Hi) as (cv' & Hcv' & _ & _ & _ & _ & p & Hg & Hs).
    rewrite Hcv in Hcv'. injection Hcv' as <-.
    destruct (layered_props_lookups p CompositeResourceSpecProps) as (H1 & H2 & H3).
    eexists p, _, _, _. split; [exact Hg|]. split; [exact Hs|].
    split; [exact H1|]. split; [exact H2|]. do 2 (split; [reflexivity|]).
    split; [exact H3|]. intros k v Hk. apply lookup_union_Some_l. exact Hk.
  - intros h h' xrd crd i vr cv Hf Hi Hcv.
    destruct (ForCompositeResourceClaim_ok_inv _ _ _ _ Hf) as (n & h1 & cats & _ & _ & _ & Hp & _).
    destruct (projectVersions_ok_lookup _ _ _ _ _ _ Hp) as (_ & Hl).
    destruct (Hl i vr Hi) as (cv' & Hcv' & _ & _ & _ & _ & p & Hg & Hs).
    rewrite Hcv in Hcv'. injection Hcv' as <-.
    destruct (layered_props_lookups p CompositeResourceClaimSpecProps) as (H1 & H2 & H3).
    eexists p, _, _, _. split; [exact Hg|]. split; [exact Hs|].
    split; [exact H1|]. split; [exact H2|]. do 2 (split; [reflexivity|]).
    split; [exact H3|]. intros k v Hk. apply lookup_union_Some_l. exact Hk.
Qed.

(** *** Versions *)

(** C7: a successful generation (either entry point) yields one version per
    input version, in order, taking name and served flag from it and its
    storage flag from its referenceable flag; success depends on nothing but
    the claim names (claim path) and the decoding of the schemas, so no check
    of version-name uniqueness or of a single storage version is made. *)
Theorem versions_one_to_one :
  (forall h h' xrd crd,
     ForCompositeResource unmarshal CompositeResourcePrinterColumns CompositeResourceSpecProps
       CompositeResourceStatusProps h xrd = (h', Ok crd) ->
     length (crd_Versions (crd_Spec crd)) = length (Versions (xrd_Spec xrd)) /\
     forall i vr, Versions (xrd_Spec xrd) !! i = Some vr ->
       exists cv, crd_Versions (crd_Spec crd) !! i = Some cv /\
         cv_Name cv = xv_Name vr /\ cv_Served cv = xv_Served vr /\
         cv_Storage cv = xv_Referenceable vr) /\
  (forall h h' xrd crd,
     ForCompositeResourceClaim unmarshal CompositeResourceClaimPrinterColumns
       CompositeResourceClaimSpecProps CompositeResourceStatusProps fmt_q h xrd = (h', Ok crd) ->
     length (crd_Versions (crd_Spec crd)) = length (Versions (xrd_Spec xrd)) /\
     forall i vr, Versions (xrd_Spec xrd) !! i = Some vr ->
       exists cv, crd_Versions (crd_Spec crd) !! i = Some cv /\
         cv_Name cv = xv_Name vr /\ cv_Served cv = xv_Served vr /\
         cv_Storage cv = xv_Referenceable vr) /\
  (forall h xrd,
     is_ok (snd (ForCompositeResource unmarshal CompositeResourcePrinterColumns
                   CompositeResourceSpecProps CompositeResourceStatusProps h xrd))
     = schemas_decode unmarshal (Versions (xrd_Spec xrd))) /\
  (forall h xrd,
     is_ok (snd (ForCompositeResourceClaim unmarshal CompositeResourceClaimPrinterColumns
                   CompositeResourceClaimSpecProps CompositeResourceStatusProps fmt_q h xrd))
     = match validateClaimNames fmt_q xrd with
       | None => schemas_decode unmarshal (Versions (xrd_Spec xrd))
       | Some _ => false
       end).
Proof.
  split; [|split; [|split]].
  - intros h h' xrd crd Hf.
    destruct (ForCompositeResource_ok_inv _ _ _ _ Hf) as (h1 & cats & _ & Hp & _).
    destruct (projectVersions_ok_lookup _ _ _ _ _ _ Hp) as (Hlen & Hl).
    split; [exact Hlen|]. intros i vr Hi.
    destruct (Hl i vr Hi) as (cv & ? & ? & ? & ? & _). eauto.
  - intros h h' xrd crd Hf.
    destruct (ForCompositeResourceClaim_ok_inv _ _ _ _ Hf) as (n & h1 & cats & _ & _ & _ & Hp & _).
    destruct (projectVersions_ok_lookup _ _ _ _ _ _ Hp) as (Hlen & Hl).
    split; [exact Hlen|]. intros i vr Hi.
    destruct (Hl i vr Hi) as (cv & ? & ? & ? & ? & _). eauto.
  - intros h xrd. pose proof (ForCompositeResource_eq h xrd) as Heq.
    destruct (append_str h _ _) as [h1 cats]. rewrite Heq. simpl.
    destruct (projectVersions_cases CompositeResourcePrinterColumns CompositeResourceSpecProps
                h1 (Versions (xrd_Spec xrd))) as (_ & Hok & _).
    destruct (projectVersions _ _ _ _ h1 _) as [h2 [vs|e|m]]; simpl in *; exact Hok.
  - intros h xrd. destruct (validateClaimNames fmt_q xrd) eqn:Hv.
    + unfold ForCompositeResourceClaim. rewrite Hv. reflexivity.
    + destruct (validateClaimNames_some_names xrd Hv) as [names Hc].
      pose proof (ForCompositeResourceClaim_eq h xrd names Hv Hc) as Heq.
      destruct (append_str h _ _) as [h1 cats]. rewrite Heq. simpl.
      destruct (projectVersions_cases CompositeResourceClaimPrinterColumns
                  CompositeResourceClaimSpecProps h1 (Versions (xrd_Spec xrd))) as (_ & Hok & _).
      destruct (projectVersions _ _ _ _ h1 _) as [h2 [vs|e|m]]; simpl in *; exact Hok.
Qed.

(** *** Decode failures *)

(** C6 (as amended): when some version's schema fails to decode,
    [ForCompositeResource] returns no definition, only the first such
    version's decode failure wrapped with "cannot get spec properties from
    validation schema"; [ForCompositeResourceClaim] does the same when its
    claim names validate, and otherwise returns the name error wrapped with
    "invalid resource claim names" (validation runs first). *)
Theorem decode_failure_aborts (h : heap) (xrd : CompositeResourceDefinition)
  (Hf : exists vr e, In vr (Versions (xrd_Spec xrd)) /\ getSpecProps unmarshal (xv_Schema vr) = Err e) :
  (exists h' pre vr post e0,
     Versions (xrd_Spec xrd) = (pre ++ vr :: post)%list /\
     schemas_decode unmarshal pre = true /\
     getSpecProps unmarshal (xv_Schema vr) = Err e0 /\
     ForCompositeResource unmarshal CompositeResourcePrinterColumns CompositeResourceSpecProps
       CompositeResourceStatusProps h xrd = (h', Err (EWrap e0 errGetSpecProps))) /\
  match validateClaimNames fmt_q xrd with
  | None =>
      exists h' pre vr post e0,
        Versions (xrd_Spec xrd) = (pre ++ vr :: post)%list /\
        schemas_decode unmarshal pre = true /\
        getSpecProps unmarshal (xv_Schema vr) = Err e0 /\
        ForCompositeResourceClaim unmarshal CompositeResourceClaimPrinterColumns
          CompositeResourceClaimSpecProps CompositeResourceStatusProps fmt_q h xrd
        = (h', Err (EWrap e0 errGetSpecProps))
  | Some err =>
      ForCompositeResourceClaim unmarshal CompositeResourceClaimPrinterColumns
        CompositeResourceClaimSpecProps CompositeResourceStatusProps fmt_q h xrd
      = (h, Err (EWrap err errInvalidClaimNames))
  end.
Proof.
  assert (Hdec : schemas_decode unmarshal (Versions (xrd_Spec xrd)) = false).
  { destruct Hf as (vr & e & Hin & He). unfold schemas_decode.
    apply not_true_iff_false. rewrite forallb_forall. intros Hall.
    specialize (Hall vr Hin). rewrite He in Hall. discriminate. }
  split.
  - pose proof (ForCompositeResource_eq h xrd) as Heq.
    destruct (append_str h _ _) as [h1 cats]. rewrite Heq.
    destruct (projectVersions_cases CompositeResourcePrinterColumns CompositeResourceSpecProps
                h1 (Versions (xrd_Spec xrd))) as (_ & Hok & Hc).
    destruct (projectVersions _ _ _ _ h1 _) as [h2 [vs|e|m]]; simpl in *.
    + rewrite Hdec in Hok. discriminate.
    + destruct Hc as (pre & vr & post & e0 & Hv & Hpre & He0 & ->).
      exists h2, pre, vr, post, e0. auto.
    + contradiction.
  - destruct (validateClaimNames fmt_q xrd) eqn:Hv.
    + unfold ForCompositeResourceClaim. rewrite Hv. reflexivity.
    + destruct (validateClaimNames_some_names xrd Hv) as [names Hcn].
      pose proof (ForCompositeResourceClaim_eq h xrd names Hv Hcn) as Heq.
      destruct (append_str h _ _) as [h1 cats]. rewrite Heq.
      destruct (projectVersions_cases CompositeResourceClaimPrinterColumns
                  CompositeResourceClaimSpecProps h1 (Versions (xrd_Spec xrd))) as (_ & Hok & Hc).
      destruct (projectVersions _ _ _ _ h1 _) as [h2 [vs|e|m]]; simpl in *.
      * rewrite Hdec in Hok. discriminate.
      * destruct Hc as (pre & vr & post & e0 & Hvs & Hpre & He0 & ->).
        exists h2, pre, vr, post, e0. auto.
      * contradiction.
Qed.

(** *** Claim derivation *)

(** C8 (as amended): with claim names present and distinct from the
    composite's (kind, plural, and singular and listKind when non-empty) and
    every version schema absent or decodable, [ForCompositeResourceClaim]
    succeeds; the output is named "<claim plural>.<group>", is namespace
    scoped, and carries the claim names except for the category list, which
    reads the claim categories followed by "claim". *)
Theorem claim_crd_identity (h : heap) (xrd : CompositeResourceDefinition) (cn : CRDNames)
  (Hc : ClaimNames (xrd_Spec xrd) = Some cn)
  (Hk : Kind cn <> Kind (Names (xrd_Spec xrd)))
  (Hp : Plural cn <> Plural (Names (xrd_Spec xrd)))
  (Hs : Singular cn <> "" -> Singular cn <> Singular (Names (xrd_Spec xrd)))
  (Hl : ListKind cn <> "" -> ListKind cn <> ListKind (Names (xrd_Spec xrd)))
  (Hd : schemas_decode unmarshal (Versions (xrd_Spec xrd)) = true) :
  exists h' crd,
    ForCompositeResourceClaim unmarshal CompositeResourceClaimPrinterColumns
      CompositeResourceClaimSpecProps CompositeResourceStatusProps fmt_q h xrd = (h', Ok crd) /\
    om_Name (crd_Meta crd) = Plural cn ++ "." ++ Group (xrd_Spec xrd) /\
    crd_Scope (crd_Spec crd) = NamespaceScoped /\
    crd_Names (crd_Spec crd) =
      MkNames (Plural cn) (Singular cn) (ShortNames cn) (Kind cn) (ListKind cn)
        (Categories (crd_Names (crd_Spec crd))) /\
    slice_read (h_str h') (Categories (crd_Names (crd_Spec crd)))
      = (slice_read (h_str h) (Categories cn) ++ [Some CategoryClaim])%list.
Proof.
  assert (Hv : validateClaimNames fmt_q xrd = None).
  { unfold validateClaimNames. rewrite Hc.
    apply String.eqb_neq in Hk, Hp. rewrite Hk, Hp.
    destruct (String.eqb_spec (Singular cn) "") as [Hs0|Hs0]; simpl;
      [|apply String.eqb_neq in Hs; [rewrite Hs|exact Hs0]];
    (destruct (String.eqb_spec (ListKind cn) "") as [Hl0|Hl0]; simpl;
      [reflexivity|apply String.eqb_neq in Hl; [rewrite Hl; reflexivity|exact Hl0]]). }
  pose proof (ForCompositeResourceClaim_eq h xrd cn Hv Hc) as Heq.
  pose proof (go_append_read (h_str h) (h_next h) (Categories cn) [CategoryClaim]) as Hread.
  unfold append_str in Heq.
  destruct (go_append (h_str h) (h_next h) (Categories cn) [CategoryClaim]) as [[m nx] cats].
  rewrite Heq.
  destruct (projectVersions_cases CompositeResourceClaimPrinterColumns
              CompositeResourceClaimSpecProps (MkHeap m (h_col h) nx) (Versions (xrd_Spec xrd)))
    as (Hstr & Hok & _).
  destruct (projectVersions _ _ _ _ (MkHeap m (h_col h) nx) _) as [h2 [vs|e|msg]];
    simpl in *; rewrite ?Hd in Hok; try discriminate.
  eexists _, _. split; [reflexivity|]. simpl.
  split; [reflexivity|]. split; [reflexivity|]. split; [reflexivity|].
  rewrite Hstr. exact Hread.
Qed.

(** *** Nil dereference *)

(** C10: [ForCompositeResourceClaim] dereferences the claim names only after
    [validateClaimNames] succeeded, which implies they are present; it never
    panics, in particular never on a nil claim name set. *)
Theorem claim_names_deref_safe :
  (forall xrd, validateClaimNames fmt_q xrd = None -> ClaimNames (xrd_Spec xrd) <> None) /\
  (forall h xrd,
     is_panic (snd (ForCompositeResourceClaim unmarshal CompositeResourceClaimPrinterColumns
                      CompositeResourceClaimSpecProps CompositeResourceStatusProps fmt_q h xrd)) = false).
Proof.
  split.
  - intros xrd Hv. destruct (validateClaimNames_some_names xrd Hv) as [n ->]. discriminate.
  - intros h xrd. destruct (validateClaimNames fmt_q xrd) eqn:Hv.
    + unfold ForCompositeResourceClaim. rewrite Hv. reflexivity.
    + destruct (validateClaimNames_some_names xrd Hv) as [names Hcn].
      pose proof (ForCompositeResourceClaim_eq h xrd names Hv Hcn) as Heq.
      destruct (append_str h _ _) as [h1 cats]. rewrite Heq.
      destruct (projectVersions_cases CompositeResourceClaimPrinterColumns
                  CompositeResourceClaimSpecProps h1 (Versions (xrd_Spec xrd))) as (_ & _ & Hc).
      destruct (projectVersions _ _ _ _ h1 _) as [h2 [vs|e|m]]; simpl in *; easy.
Qed.

(** *** Spec-property parsing *)

(** C9: [getSpecProps] returns the nil (empty) map without error for an absent
    schema; for a present one it fails, with the decoder's error wrapped as
    "cannot parse validation schema", exactly when decoding fails, and
    otherwise returns the map at properties.spec.properties, the nil (empty)
    map when that path is absent. *)
Theorem getSpecProps_spec :
  getSpecProps unmarshal None = Ok None /\
  (forall raw s, unmarshal raw = inl s ->
     getSpecProps unmarshal (Some raw)
     = Ok (map_get (props_Properties s) "spec" ≫= props_Properties)) /\
  (forall raw s, unmarshal raw = inl s ->
     map_get (props_Properties s) "spec" ≫= props_Properties = None ->
     getSpecProps unmarshal (Some raw) = Ok None) /\
  (forall raw e, unmarshal raw = inr e ->
     getSpecProps unmarshal (Some raw) = Err (EWrap e errParseValidation)) /\
  (forall v, (exists e, getSpecProps unmarshal v = Err e) <->
     exists raw e, v = Some raw /\ unmarshal raw = inr e).
Proof.
  assert (Hok : forall raw s, unmarshal raw = inl s ->
     getSpecProps unmarshal (Some raw)
     = Ok (map_get (props_Properties s) "spec" ≫= props_Properties)).
  { intros raw s Hs. simpl. rewrite Hs.
    destruct (map_get (props_Properties s) "spec"); reflexivity. }
  split; [reflexivity|]. split; [exact Hok|]. split.
  { intros raw s Hs Hn. rewrite (Hok raw s Hs), Hn. reflexivity. }
  split.
  { intros raw e He. simpl. rewrite He. reflexivity. }
  intros v. split.
  - intros [e He]. destruct v as [raw|]; [|discriminate].
    destruct (unmarshal raw) as [s|e'] eqn:Hu.
    + rewrite (Hok raw s Hu) in He. discriminate.
    + eauto.
  - intros (raw & e & -> & He). simpl. rewrite He. eauto.
Qed.

(** *** Aliasing of the input's slices *)

(** Evidence for C2: on [aliased_xrd], appending the category tag writes into
    the spare capacity of the input's category list, which is where the
    input's short names live, so both entry points change the input's short
    names (to "composite" and "claim" respectively). *)
Theorem append_overwrites_input_short_names :
  slice_read (h_str aliased_heap) (ShortNames (Names (xrd_Spec aliased_xrd))) = [Some "xpg"] /\
  slice_read (h_str (fst (ForCompositeResource unmarshal CompositeResourcePrinterColumns
                            CompositeResourceSpecProps CompositeResourceStatusProps
                            aliased_heap aliased_xrd)))
    (ShortNames (Names (xrd_Spec aliased_xrd))) = [Some CategoryComposite] /\
  option_map (fun cn => slice_read (h_str aliased_heap) (ShortNames cn))
    (ClaimNames (xrd_Spec aliased_xrd)) = Some [Some "pg"] /\
  option_map (fun cn => slice_read (h_str (fst (ForCompositeResourceClaim unmarshal
                            CompositeResourceClaimPrinterColumns CompositeResourceClaimSpecProps
                            CompositeResourceStatusProps fmt_q aliased_heap aliased_xrd))) (ShortNames cn))
    (ClaimNames (xrd_Spec aliased_xrd)) = Some [Some CategoryClaim].
Proof. vm_compute. repeat split. Qed.

(** *** Effects of the version loop on the heap *)

Lemma getSpecProps_err (v : option string) (e : error) :
  getSpecProps unmarshal v = Err e ->
  exists raw e0, v = Some raw /\ unmarshal raw = inr e0 /\ e = EWrap e0 errParseValidation.
Proof.
  unfold getSpecProps. destruct v as [raw|]; [|discriminate].
  destruct (unmarshal raw) as [s|e0] eqn:Hu.
  - destruct (map_get _ _); discriminate.
  - intros H. injection H as <-. eauto.
Qed.

Lemma projectVersions_frame (cols : list CustomResourceColumnDefinition)
  (sp : gmap string JSONSchemaProps) (h : heap) (vs : list XRDVersion) :
  let h' := fst (projectVersions unmarshal CompositeResourceStatusProps cols sp h vs) in
  h_next h <= h_next h' /\ h_str h' = h_str h /\
  (forall l, l < h_next h ->
     forallb (fun vr => negb (in_spare (xv_AdditionalPrinterColumns vr) l)) vs = true ->
     h_col h' !! l = h_col h !! l).
Proof.
  revert h. induction vs as [|vr vs IH]; intros h; simpl.
  - auto.
  - rewrite projectVersion_eq. unfold append_col.
    pose proof (go_append_cases (h_col h) (h_next h) (xv_AdditionalPrinterColumns vr) cols) as Hc.
    destruct (go_append (h_col h) (h_next h) _ cols) as [[m nx] s'].
    destruct Hc as (Hnx & _ & Hfr & _).
    destruct (IH (MkHeap (h_str h) m nx)) as (IHn & IHs & IHc). simpl in IHn, IHs, IHc |- *.
    destruct (getSpecProps unmarshal (xv_Schema vr)) as [p|e|msg]; simpl.
    + destruct (projectVersions _ _ _ _ (MkHeap (h_str h) m nx) vs) as [h2 o2]. simpl in *.
      split; [lia|]. split; [exact IHs|].
      intros l Hl Hall. apply andb_true_iff in Hall as [H1 H2]. apply negb_true_iff in H1.
      rewrite IHc by (exact H2 || lia). apply Hfr; assumption.
    + split; [lia|]. split; [reflexivity|].
      intros l Hl Hall. apply andb_true_iff in Hall as [H1 _]. apply negb_true_iff in H1.
      apply Hfr; assumption.
    + split; [lia|]. split; [reflexivity|].
      intros l Hl Hall. apply andb_true_iff in Hall as [H1 _]. apply negb_true_iff in H1.
      apply Hfr; assumption.
Qed.

Lemma projectVersions_columns (cols : list CustomResourceColumnDefinition)
  (sp : gmap string JSONSchemaProps) (h : heap) (vs : list XRDVersion) :
  columns_allocated (h_next h) vs = true -> columns_separate vs = true ->
  match projectVersions unmarshal CompositeResourceStatusProps cols sp h vs with
  | (h', Ok cvs) =>
      Forall2 (fun vr cv =>
        slice_read (h_col h') (cv_AdditionalPrinterColumns cv)
        = (slice_read (h_col h) (xv_AdditionalPrinterColumns vr) ++ (Some <$> cols))%list) vs cvs
  | _ => True
  end.
Proof.
  revert h. induction vs as [|vr vs IH]; intros h Hal Hsep; simpl; [constructor|].
  rewrite projectVersion_eq. unfold append_col.
  pose proof (go_append_read (h_col h) (h_next h) (xv_AdditionalPrinterColumns vr) cols) as Hrd.
  pose proof (go_append_cases (h_col h) (h_next h) (xv_AdditionalPrinterColumns vr) cols) as Hc.
  destruct (go_append (h_col h) (h_next h) _ cols) as [[m nx] s'].
  destruct Hc as (Hnx & Hlen & Hfr & Hreg). simpl.
  unfold columns_allocated in Hal. simpl in Hal, Hsep.
  apply andb_true_iff in Hal as [Hal0 Hal]. apply andb_true_iff in Hsep as [Hap Hsep].
  rewrite forallb_forall in Hap, Hal.
  destruct (getSpecProps unmarshal (xv_Schema vr)) as [p|e|msg]; simpl; [|exact I|exact I].
  specialize (IH (MkHeap (h_str h) m nx)). simpl in IH.
  destruct (projectVersions_frame cols sp (MkHeap (h_str h) m nx) vs) as (_ & _ & Hfr2).
  simpl in Hfr2.
  destruct (projectVersions _ _ _ _ (MkHeap (h_str h) m nx) vs) as [h2 [cvs|e|msg]];
    simpl in *; [|exact I|exact I].
  constructor.
  - rewrite <- Hrd. unfold slice_read. apply fmap_seq_ext. intros j Hj.
    apply Hfr2.
    + destruct Hreg as [[Hp Hl]|[Hp Hl]]; nat_bools.
    + apply forallb_forall. intros vr' Hin. apply negb_true_iff.
      specialize (Hap vr' Hin). specialize (Hal vr' Hin).
      destruct Hreg as [[Hp Hl]|[Hp Hl]].
      * apply (apart_not_spare (xv_AdditionalPrinterColumns vr)); [exact Hap|nat_bools].
      * nat_bools.
  - apply (Forall2_impl_in _ _ _ _ (IH ltac:(apply (columns_allocated_mono (h_next h));
                                              [exact Hnx|apply forallb_forall; exact Hal])
                                        Hsep)).
    intros vr' cv Hin ->. f_equal. unfold slice_read. apply fmap_seq_ext. intros j Hj.
    specialize (Hap vr' Hin). specialize (Hal vr' Hin).
    apply Hfr.
    + nat_bools.
    + apply (apart_not_spare_r _ (xv_AdditionalPrinterColumns vr')); [exact Hap|nat_bools].
Qed.

Lemma ForCompositeResource_heap (h : heap) (xrd : CompositeResourceDefinition) :
  exists m nx cats,
    append_str h (Categories (Names (xrd_Spec xrd))) [CategoryComposite] = (MkHeap m (h_col h) nx, cats) /\
    h_next h <= nx /\
    (forall l, l < h_next h -> in_spare (Categories (Names (xrd_Spec xrd))) l = false ->
       m !! l = h_str h !! l) /\
    slice_read m cats = (slice_read (h_str h) (Categories (Names (xrd_Spec xrd))) ++ [Some CategoryComposite])%list.
Proof.
  unfold append_str.
  pose proof (go_append_cases (h_str h) (h_next h) (Categories (Names (xrd_Spec xrd))) [CategoryComposite]) as Hc.
  pose proof (go_append_read (h_str h) (h_next h) (Categories (Names (xrd_Spec xrd))) [CategoryComposite]) as Hr.
  destruct (go_append _ _ _ _) as [[m nx] cats].
  destruct Hc as (Hnx & _ & Hfr & _). exists m, nx, cats. auto.
Qed.

Lemma ForCompositeResourceClaim_heap (h : heap) (cn : CRDNames) :
  exists m nx cats,
    append_str h (Categories cn) [CategoryClaim] = (MkHeap m (h_col h) nx, cats) /\
    h_next h <= nx /\
    (forall l, l < h_next h -> in_spare (Categories cn) l = false -> m !! l = h_str h !! l).
Proof.
  unfold append_str.
  pose proof (go_append_cases (h_str h) (h_next h) (Categories cn) [CategoryClaim]) as Hc.
  destruct (go_append _ _ _ _) as [[m nx] cats].
  destruct Hc as (Hnx & _ & Hfr & _). exists m, nx, cats. auto.
Qed.

(** *** Further properties of the two entry points *)

(** X1: when every version schema is absent or decodes, [ForCompositeResource]
    succeeds; the definition has the composite's name, labels and annotations,
    one owner reference, the controller reference to the composite (its API
    version, kind, name and UID, [Controller] true, [BlockOwnerDeletion]
    nil), is cluster scoped in the composite's group, and carries the composite's names
    except the category list, which reads the composite's categories followed
    by "composite". *)
Theorem composite_crd_identity (h : heap) (xrd : CompositeResourceDefinition)
  (Hd : schemas_decode unmarshal (Versions (xrd_Spec xrd)) = true) :
  exists h' crd,
    ForCompositeResource unmarshal CompositeResourcePrinterColumns CompositeResourceSpecProps
      CompositeResourceStatusProps h xrd = (h', Ok crd) /\
    crd_Meta crd = MkObjectMeta (om_Name (xrd_Meta xrd)) "" (om_Labels (xrd_Meta xrd))
                     (om_Annotations (xrd_Meta xrd)) [controller_ref xrd] /\
    om_OwnerReferences (crd_Meta crd) =
      [MkOwnerReference "apiextensions.crossplane.io/v1alpha1" "CompositeResourceDefinition"
         (om_Name (xrd_Meta xrd)) (om_UID (xrd_Meta xrd)) (Some true) None] /\
    crd_Scope (crd_Spec crd) = ClusterScoped /\
    crd_Group (crd_Spec crd) = Group (xrd_Spec xrd) /\
    crd_Names (crd_Spec crd) =
      MkNames (Plural (Names (xrd_Spec xrd))) (Singular (Names (xrd_Spec xrd)))
        (ShortNames (Names (xrd_Spec xrd))) (Kind (Names (xrd_Spec xrd)))
        (ListKind (Names (xrd_Spec xrd))) (Categories (crd_Names (crd_Spec crd))) /\
    slice_read (h_str h') (Categories (crd_Names (crd_Spec crd)))
      = (slice_read (h_str h) (Categories (Names (xrd_Spec xrd))) ++ [Some CategoryComposite])%list.
Proof.
  pose proof (ForCompositeResource_eq h xrd) as Heq.
  destruct (ForCompositeResource_heap h xrd) as (m & nx & cats & Ha & _ & _ & Hread).
  rewrite Ha in Heq. rewrite Heq.
  destruct (projectVersions_cases CompositeResourcePrinterColumns CompositeResourceSpecProps
              (MkHeap m (h_col h) nx) (Versions (xrd_Spec xrd))) as (Hstr & Hok & _).
  destruct (projectVersions _ _ _ _ (MkHeap m (h_col h) nx) _) as [h2 [vs|e|msg]];
    simpl in *; rewrite ?Hd in Hok; try discriminate.
  eexists _, _. split; [reflexivity|]. simpl.
  do 5 (split; [reflexivity|]). rewrite Hstr. exact Hread.
Qed.

(** X2: when the claim names validate and every version schema is absent or
    decodes, both entry points succeed, and the two definitions agree on
    labels, annotations, owner references, group and number of versions; the
    versions at each index agree on name, served and storage flags and on
    every schema entry but "spec", and their "spec" properties differ only by
    the synthesized spec table laid over a common part. *)
Theorem composite_and_claim_agree (h : heap) (xrd : CompositeResourceDefinition)
  (Hv : validateClaimNames fmt_q xrd = None)
  (Hd : schemas_decode unmarshal (Versions (xrd_Spec xrd)) = true) :
  exists h1 crd1 h2 crd2,
    ForCompositeResource unmarshal CompositeResourcePrinterColumns CompositeResourceSpecProps
      CompositeResourceStatusProps h xrd = (h1, Ok crd1) /\
    ForCompositeResourceClaim unmarshal CompositeResourceClaimPrinterColumns
      CompositeResourceClaimSpecProps CompositeResourceStatusProps fmt_q h xrd = (h2, Ok crd2) /\
    om_Labels (crd_Meta crd1) = om_Labels (crd_Meta crd2) /\
    om_Annotations (crd_Meta crd1) = om_Annotations (crd_Meta crd2) /\
    om_OwnerReferences (crd_Meta crd1) = om_OwnerReferences (crd_Meta crd2) /\
    crd_Group (crd_Spec crd1) = crd_Group (crd_Spec crd2) /\
    length (crd_Versions (crd_Spec crd1)) = length (crd_Versions (crd_Spec crd2)) /\
    forall i cv1 cv2,
      crd_Versions (crd_Spec crd1) !! i = Some cv1 ->
      crd_Versions (crd_Spec crd2) !! i = Some cv2 ->
      cv_Name cv1 = cv_Name cv2 /\ cv_Served cv1 = cv_Served cv2 /\
      cv_Storage cv1 = cv_Storage cv2 /\
      exists props1 props2 common,
        cv_Schema cv1 = MkJSONSchemaProps "object" (Some props1) /\
        cv_Schema cv2 = MkJSONSchemaProps "object" (Some props2) /\
        (forall k, k <> "spec" -> props1 !! k = props2 !! k) /\
        props1 !! "spec" = Some (MkJSONSchemaProps "object" (Some (CompositeResourceSpecProps ∪ common))) /\
        props2 !! "spec" = Some (MkJSONSchemaProps "object" (Some (CompositeResourceClaimSpecProps ∪ common))).
Proof.
  destruct (validateClaimNames_some_names xrd Hv) as [cn Hc].
  pose proof (ForCompositeResource_eq h xrd) as Heq1.
  pose proof (ForCompositeResourceClaim_eq h xrd cn Hv Hc) as Heq2.
  destruct (append_str h (Categories (Names (xrd_Spec xrd))) _) as [g1 cats1].
  destruct (append_str h (Categories cn) _) as [g2 cats2].
  rewrite Heq1, Heq2.
  destruct (projectVersions_cases CompositeResourcePrinterColumns CompositeResourceSpecProps
              g1 (Versions (xrd_Spec xrd))) as (_ & Hok1 & _).
  destruct (projectVersions_cases CompositeResourceClaimPrinterColumns CompositeResourceClaimSpecProps
              g2 (Versions (xrd_Spec xrd))) as (_ & Hok2 & _).
  destruct (projectVersions _ _ CompositeResourcePrinterColumns _ g1 _) as [k1 [vs1|e|msg]] eqn:Hp1;
    simpl in Hok1; rewrite ?Hd in Hok1; try discriminate.
  destruct (projectVersions _ _ CompositeResourceClaimPrinterColumns _ g2 _) as [k2 [vs2|e|msg]] eqn:Hp2;
    simpl in Hok2; rewrite ?Hd in Hok2; try discriminate.
  destruct (projectVersions_ok_lookup _ _ _ _ _ _ Hp1) as (Hlen1 & Hl1).
  destruct (projectVersions_ok_lookup _ _ _ _ _ _ Hp2) as (Hlen2 & Hl2).
  eexists _, _, _, _. split; [reflexivity|]. split; [reflexivity|]. simpl.
  do 4 (split; [reflexivity|]). split; [lia|].
  intros i cv1 cv2 H1 H2.
  destruct (lookup_lt_is_Some_2 (Versions (xrd_Spec xrd)) i) as [vr Hi].
  { rewrite <- Hlen1. apply lookup_lt_is_Some_1. rewrite H1. eauto. }
  destruct (Hl1 i vr Hi) as (cv1' & Hc1 & Hn1 & Hs1 & Hst1 & _ & p1 & Hg1 & Hsc1).
  destruct (Hl2 i vr Hi) as (cv2' & Hc2 & Hn2 & Hs2 & Hst2 & _ & p2 & Hg2 & Hsc2).
  rewrite H1 in Hc1. injection Hc1 as <-. rewrite H2 in Hc2. injection Hc2 as <-.
  rewrite Hg1 in Hg2. injection Hg2 as <-.
  split; [congruence|]. split; [congruence|]. split; [congruence|].
  destruct (layered_props_lookups p1 CompositeResourceSpecProps) as (Ha1 & Hb1 & Hc1).
  destruct (layered_props_lookups p1 CompositeResourceClaimSpecProps) as (Ha2 & Hb2 & Hc2).
  eexists _, _, _. split; [exact Hsc1|]. split; [exact Hsc2|].
  split; [|split; [exact Ha1|exact Ha2]].
  intros k Hk. destruct (String.eq_dec k "status") as [->|Hks].
  - rewrite Hb1, Hb2. reflexivity.
  - rewrite Hc1, Hc2 by assumption. reflexivity.
Qed.

(** X3: each entry point, called on a [*CompositeResourceDefinition], panics
    exactly when the pointer is nil, and then writes nothing; on a non-nil
    definition it never panics (its map writes go into the "spec" and
    "status" objects of the base schema, whose maps are non-nil, and the
    claim names are dereferenced only after validation found them). *)
Theorem panics_exactly_on_nil (h : heap) (p : option CompositeResourceDefinition) :
  is_panic (snd (ForCompositeResourcePtr unmarshal CompositeResourcePrinterColumns
                   CompositeResourceSpecProps CompositeResourceStatusProps h p)) = is_nil p /\
  is_panic (snd (ForCompositeResourceClaimPtr unmarshal CompositeResourceClaimPrinterColumns
                   CompositeResourceClaimSpecProps CompositeResourceStatusProps fmt_q h p)) = is_nil p /\
  (p = None ->
   fst (ForCompositeResourcePtr unmarshal CompositeResourcePrinterColumns
          CompositeResourceSpecProps CompositeResourceStatusProps h p) = h /\
   fst (ForCompositeResourceClaimPtr unmarshal CompositeResourceClaimPrinterColumns
          CompositeResourceClaimSpecProps CompositeResourceStatusProps fmt_q h p) = h).
Proof.
  destruct p as [xrd|]; [|split; [reflexivity|split; [reflexivity|auto]]].
  split; [|split; [|discriminate]]; simpl.
  - pose proof (ForCompositeResource_eq h xrd) as Heq.
    destruct (append_str h _ _) as [h1 cats]. rewrite Heq.
    destruct (projectVersions_cases CompositeResourcePrinterColumns CompositeResourceSpecProps
                h1 (Versions (xrd_Spec xrd))) as (_ & _ & Hc).
    destruct (projectVersions _ _ _ _ h1 _) as [h2 [vs|e|m]]; simpl in *; easy.
  - destruct (validateClaimNames fmt_q xrd) eqn:Hv.
    + unfold ForCompositeResourceClaim. rewrite Hv. reflexivity.
    + destruct (validateClaimNames_some_names xrd Hv) as [names Hcn].
      pose proof (ForCompositeResourceClaim_eq h xrd names Hv Hcn) as Heq.
      destruct (append_str h _ _) as [h1 cats]. rewrite Heq.
      destruct (projectVersions_cases CompositeResourceClaimPrinterColumns
                  CompositeResourceClaimSpecProps h1 (Versions (xrd_Spec xrd))) as (_ & _ & Hc).
      destruct (projectVersions _ _ _ _ h1 _) as [h2 [vs|e|m]]; simpl in *; easy.
Qed.

(** X4: the messages of the errors the entry points return.  An error of
    [ForCompositeResource] reads "cannot get spec properties from validation
    schema: cannot parse validation schema: " followed by the decoder's
    message for the raw schema of one of the versions.  An error of
    [ForCompositeResourceClaim] reads either "invalid resource claim names: "
    followed by the validation error (the heap then unchanged), or, when the
    names validate, the decode message above. *)
Theorem error_messages :
  (forall h h' xrd e,
     ForCompositeResource unmarshal CompositeResourcePrinterColumns CompositeResourceSpecProps
       CompositeResourceStatusProps h xrd = (h', Err e) ->
     exists vr raw e0,
       In vr (Versions (xrd_Spec xrd)) /\ xv_Schema vr = Some raw /\ unmarshal raw = inr e0 /\
       Error e = errGetSpecProps ++ ": " ++ errParseValidation ++ ": " ++ Error e0) /\
  (forall h h' xrd e,
     ForCompositeResourceClaim unmarshal CompositeResourceClaimPrinterColumns
       CompositeResourceClaimSpecProps CompositeResourceStatusProps fmt_q h xrd = (h', Err e) ->
     (exists e1, validateClaimNames fmt_q xrd = Some e1 /\ h' = h /\
        Error e = errInvalidClaimNames ++ ": " ++ Error e1) \/
     (validateClaimNames fmt_q xrd = None /\
      exists vr raw e0,
        In vr (Versions (xrd_Spec xrd)) /\ xv_Schema vr = Some raw /\ unmarshal raw = inr e0 /\
        Error e = errGetSpecProps ++ ": " ++ errParseValidation ++ ": " ++ Error e0)).
Proof.
  assert (Hloop : forall cols sp g vs h' e,
            projectVersions unmarshal CompositeResourceStatusProps cols sp g vs = (h', Err e) ->
            exists vr raw e0,
              In vr vs /\ xv_Schema vr = Some raw /\ unmarshal raw = inr e0 /\
              Error e = errGetSpecProps ++ ": " ++ errParseValidation ++ ": " ++ Error e0).
  { intros cols sp g vs h' e Hp.
    destruct (projectVersions_cases cols sp g vs) as (_ & _ & Hc).
    rewrite Hp in Hc. simpl in Hc.
    destruct Hc as (pre & vr & post & e1 & -> & _ & He1 & ->).
    destruct (getSpecProps_err _ _ He1) as (raw & e0 & Hs & Hu & ->).
    exists vr, raw, e0. split; [apply in_or_app; right; left; reflexivity|].
    auto. }
  split.
  - intros h h' xrd e Hf.
    pose proof (ForCompositeResource_eq h xrd) as Heq.
    destruct (append_str h _ _) as [h1 cats]. rewrite Heq in Hf.
    destruct (projectVersions _ _ _ _ h1 _) as [h2 [vs|e'|m]] eqn:Hp; simpl in Hf;
      inversion Hf; subst.
    exact (Hloop _ _ _ _ _ _ Hp).
  - intros h h' xrd e Hf. destruct (validateClaimNames fmt_q xrd) as [e1|] eqn:Hv.
    + left. unfold ForCompositeResourceClaim in Hf. rewrite Hv in Hf.
      injection Hf as <- <-. exists e1. auto.
    + right. split; [reflexivity|].
      destruct (validateClaimNames_some_names xrd Hv) as [cn Hc].
      pose proof (ForCompositeResourceClaim_eq h xrd cn Hv Hc) as Heq.
      destruct (append_str h _ _) as [h1 cats]. rewrite Heq in Hf.
      destruct (projectVersions _ _ _ _ h1 _) as [h2 [vs|e'|m]] eqn:Hp; simpl in Hf;
        inversion Hf; subst.
      exact (Hloop _ _ _ _ _ _ Hp).
Qed.

(** X5: when the versions' printer-column lists are well-formed slices in
    pairwise disjoint arrays below the allocation pointer, each generated
    version's printer columns read, after the call, the input version's
    columns followed by the synthesized columns of the entry point (for both
    entry points). *)
Theorem printer_columns_appended (h : heap) (xrd : CompositeResourceDefinition)
  (Hal : columns_allocated (h_next h) (Versions (xrd_Spec xrd)) = true)
  (Hsep : columns_separate (Versions (xrd_Spec xrd)) = true) :
  (forall h' crd,
     ForCompositeResource unmarshal CompositeResourcePrinterColumns CompositeResourceSpecProps
       CompositeResourceStatusProps h xrd = (h', Ok crd) ->
     Forall2 (fun vr cv =>
       slice_read (h_col h') (cv_AdditionalPrinterColumns cv)
       = (slice_read (h_col h) (xv_AdditionalPrinterColumns vr)
            ++ (Some <$> CompositeResourcePrinterColumns))%list)
       (Versions (xrd_Spec xrd)) (crd_Versions (crd_Spec crd))) /\
  (forall h' crd,
     ForCompositeResourceClaim unmarshal CompositeResourceClaimPrinterColumns
       CompositeResourceClaimSpecProps CompositeResourceStatusProps fmt_q h xrd = (h', Ok crd) ->
     Forall2 (fun vr cv =>
       slice_read (h_col h') (cv_AdditionalPrinterColumns cv)
       = (slice_read (h_col h) (xv_AdditionalPrinterColumns vr)
            ++ (Some <$> CompositeResourceClaimPrinterColumns))%list)
       (Versions (xrd_Spec xrd)) (crd_Versions (crd_Spec crd))).
Proof.
  split.
  - intros h' crd Hf.
    pose proof (ForCompositeResource_eq h xrd) as Heq.
    destruct (ForCompositeResource_heap h xrd) as (m & nx & cats & Ha & Hnx & _ & _).
    rewrite Ha in Heq. rewrite Heq in Hf.
    pose proof (projectVersions_columns CompositeResourcePrinterColumns CompositeResourceSpecProps
                  (MkHeap m (h_col h) nx) (Versions (xrd_Spec xrd))
                  (columns_allocated_mono _ _ _ Hnx Hal) Hsep) as Hcol.
    destruct (projectVersions _ _ _ _ (MkHeap m (h_col h) nx) _) as [h2 [vs|e|msg]];
      simpl in Hf; inversion Hf; subst. exact Hcol.
  - intros h' crd Hf. destruct (validateClaimNames fmt_q xrd) eqn:Hv.
    + unfold ForCompositeResourceClaim in Hf. rewrite Hv in Hf. discriminate.
    + destruct (validateClaimNames_some_names xrd Hv) as [cn Hc].
      pose proof (ForCompositeResourceClaim_eq h xrd cn Hv Hc) as Heq.
      destruct (ForCompositeResourceClaim_heap h cn) as (m & nx & cats & Ha & Hnx & _).
      rewrite Ha in Heq. rewrite Heq in Hf.
      pose proof (projectVersions_columns CompositeResourceClaimPrinterColumns
                    CompositeResourceClaimSpecProps (MkHeap m (h_col h) nx) (Versions (xrd_Spec xrd))
                    (columns_allocated_mono _ _ _ Hnx Hal) Hsep) as Hcol.
      destruct (projectVersions _ _ _ _ (MkHeap m (h_col h) nx) _) as [h2 [vs|e|msg]];
        simpl in Hf; inversion Hf; subst. exact Hcol.
Qed.

(** X6: what the entry points write, whether they succeed or not: the
    allocation pointer never decreases, and below it the only cells that may
    change are the spare capacity of the category list appended to (string
    cells) and the spare capacity of the versions' printer-column lists
    (column cells); the claim entry point writes nothing when the claim names
    do not validate. *)
Theorem generation_frame (h : heap) (xrd : CompositeResourceDefinition) :
  (let h' := fst (ForCompositeResource unmarshal CompositeResourcePrinterColumns
                    CompositeResourceSpecProps CompositeResourceStatusProps h xrd) in
   h_next h <= h_next h' /\
   (forall l, l < h_next h -> in_spare (Categories (Names (xrd_Spec xrd))) l = false ->
      h_str h' !! l = h_str h !! l) /\
   (forall l, l < h_next h ->
      forallb (fun vr => negb (in_spare (xv_AdditionalPrinterColumns vr) l))
        (Versions (xrd_Spec xrd)) = true ->
      h_col h' !! l = h_col h !! l)) /\
  (let h' := fst (ForCompositeResourceClaim unmarshal CompositeResourceClaimPrinterColumns
                    CompositeResourceClaimSpecProps CompositeResourceStatusProps fmt_q h xrd) in
   match validateClaimNames fmt_q xrd, ClaimNames (xrd_Spec xrd) with
   | None, Some cn =>
       h_next h <= h_next h' /\
       (forall l, l < h_next h -> in_spare (Categories cn) l = false ->
          h_str h' !! l = h_str h !! l) /\
       (forall l, l < h_next h ->
          forallb (fun vr => negb (in_spare (xv_AdditionalPrinterColumns vr) l))
            (Versions (xrd_Spec xrd)) = true ->
          h_col h' !! l = h_col h !! l)
   | _, _ => h' = h
   end).
Proof.
  split.
  - pose proof (ForCompositeResource_eq h xrd) as Heq.
    destruct (ForCompositeResource_heap h xrd) as (m & nx & cats & Ha & Hnx & Hfr & _).
    rewrite Ha in Heq. rewrite Heq. simpl.
    destruct (projectVersions_frame CompositeResourcePrinterColumns CompositeResourceSpecProps
                (MkHeap m (h_col h) nx) (Versions (xrd_Spec xrd))) as (Hn & Hs & Hc).
    simpl in Hn, Hs, Hc. split; [lia|]. split.
    + intros l Hl Hsp. rewrite Hs. apply Hfr; assumption.
    + intros l Hl Hall. apply Hc; [lia|exact Hall].
  - simpl. destruct (validateClaimNames fmt_q xrd) eqn:Hv.
    + unfold ForCompositeResourceClaim. rewrite Hv. reflexivity.
    + destruct (validateClaimNames_some_names xrd Hv) as [cn Hcn]. rewrite Hcn.
      pose proof (ForCompositeResourceClaim_eq h xrd cn Hv Hcn) as Heq.
      destruct (ForCompositeResourceClaim_heap h cn) as (m & nx & cats & Ha & Hnx & Hfr).
      rewrite Ha in Heq. rewrite Heq. simpl.
      destruct (projectVersions_frame CompositeResourceClaimPrinterColumns
                  CompositeResourceClaimSpecProps (MkHeap m (h_col h) nx)
                  (Versions (xrd_Spec xrd))) as (Hn & Hs & Hc).
      simpl in Hn, Hs, Hc. split; [lia|]. split.
      * intros l Hl Hsp. rewrite Hs. apply Hfr; assumption.
      * intros l Hl Hall. apply Hc; [lia|exact Hall].
Qed.

(** X7: every version either entry point generates has the status
    subresource enabled and an object-typed top-level schema. *)
Theorem status_subresource_enabled :
  (forall h h' xrd crd i cv,
     ForCompositeResource unmarshal CompositeResourcePrinterColumns CompositeResourceSpecProps
       CompositeResourceStatusProps h xrd = (h', Ok crd) ->
     crd_Versions (crd_Spec crd) !! i = Some cv ->
     cv_StatusSubresource cv = true /\ props_Type (cv_Schema cv) = "object") /\
  (forall h h' xrd crd i cv,
     ForCompositeResourceClaim unmarshal CompositeResourceClaimPrinterColumns
       CompositeResourceClaimSpecProps CompositeResourceStatusProps fmt_q h xrd = (h', Ok crd) ->
     crd_Versions (crd_Spec crd) !! i = Some cv ->
     cv_StatusSubresource cv = true /\ props_Type (cv_Schema cv) = "object").
Proof.
  assert (Hloop : forall cols sp g vs h' cvs i cv,
            projectVersions unmarshal CompositeResourceStatusProps cols sp g vs = (h', Ok cvs) ->
            cvs !! i = Some cv ->
            cv_StatusSubresource cv = true /\ props_Type (cv_Schema cv) = "object").
  { intros cols sp g vs h' cvs i cv Hp Hi.
    destruct (projectVersions_cases cols sp g vs) as (_ & _ & Hc).
    rewrite Hp in Hc. simpl in Hc.
    destruct (Forall2_lookup_r _ _ _ _ _ Hc Hi) as (vr & _ & _ & _ & _ & Hst & p & _ & ->).
    auto. }
  split.
  - intros h h' xrd crd i cv Hf Hi.
    destruct (ForCompositeResource_ok_inv _ _ _ _ Hf) as (h1 & cats & _ & Hp & _).
    exact (Hloop _ _ _ _ _ _ _ _ Hp Hi).
  - intros h h' xrd crd i cv Hf Hi.
    destruct (ForCompositeResourceClaim_ok_inv _ _ _ _ Hf) as (n & h1 & cats & _ & _ & _ & Hp & _).
    exact (Hloop _ _ _ _ _ _ _ _ Hp Hi).
Qed.

End GenerateProofs.

(** ** Witnesses and counterexamples *)

(** Witness of C4: the kind conflict of [kind_conflict_xrd]. *)
Lemma validateClaimNames_conflict_message_witness :
  exists f v, validate_claim_names_spec kind_conflict_xrd = Some (NameConflict f v) /\
    In f ["kind"; "plural"; "singular"; "listKind"] /\
    Error (conflicting_claim_name quote_ascii "XPostgreSQLInstance")
    = quote_ascii v ++ errFmtConflictingClaimName_suffix /\
    ForCompositeResourceClaim example_unmarshal example_claim_columns
      example_claim_spec_props example_status_props quote_ascii empty_heap kind_conflict_xrd
    = (empty_heap, Err (EWrap (conflicting_claim_name quote_ascii "XPostgreSQLInstance")
                          errInvalidClaimNames)) /\
    Error (EWrap (conflicting_claim_name quote_ascii "XPostgreSQLInstance") errInvalidClaimNames)
    = errInvalidClaimNames ++ ": " ++ quote_ascii v ++ errFmtConflictingClaimName_suffix.
Proof.
  apply (validateClaimNames_conflict_message example_unmarshal example_claim_columns
           example_claim_spec_props example_status_props quote_ascii empty_heap kind_conflict_xrd
           (conflicting_claim_name quote_ascii "XPostgreSQLInstance")).
  - vm_compute. reflexivity.
  - discriminate.
Defined.

(** C4 refuted: the conflict of the claim kind with the composite kind is
    reported as the quoted value only; neither the bare message nor the message
    [ForCompositeResourceClaim] returns names the field. *)
Lemma kind_conflict_message_omits_field :
  validateClaimNames quote_ascii kind_conflict_xrd
    = Some (EMsg (q "XPostgreSQLInstance" ++ " conflicts with composite resource name")) /\
  snd (ForCompositeResourceClaim example_unmarshal example_claim_columns
         example_claim_spec_props example_status_props quote_ascii empty_heap kind_conflict_xrd)
    = Err (EWrap (EMsg (q "XPostgreSQLInstance" ++ " conflicts with composite resource name"))
             errInvalidClaimNames) /\
  contains "kind" (q "XPostgreSQLInstance" ++ " conflicts with composite resource name") = false /\
  contains "Kind" (q "XPostgreSQLInstance" ++ " conflicts with composite resource name") = false /\
  contains "kind" (Error (EWrap (EMsg (q "XPostgreSQLInstance" ++ " conflicts with composite resource name"))
                             errInvalidClaimNames)) = false.
Proof. vm_compute. repeat split. Qed.

(** Witness of C6: [named_malformed_xrd], whose second version is malformed. *)
Lemma decode_failure_aborts_witness :
  (exists vr e, In vr (Versions (xrd_Spec named_malformed_xrd)) /\
     getSpecProps example_unmarshal (xv_Schema vr) = Err e) /\
  ((exists h' pre vr post e0,
     Versions (xrd_Spec named_malformed_xrd) = (pre ++ vr :: post)%list /\
     schemas_decode example_unmarshal pre = true /\
     getSpecProps example_unmarshal (xv_Schema vr) = Err e0 /\
     ForCompositeResource example_unmarshal example_columns example_spec_props
       example_status_props empty_heap named_malformed_xrd = (h', Err (EWrap e0 errGetSpecProps))) /\
  match validateClaimNames quote_ascii named_malformed_xrd with
  | None =>
      exists h' pre vr post e0,
        Versions (xrd_Spec named_malformed_xrd) = (pre ++ vr :: post)%list /\
        schemas_decode example_unmarshal pre = true /\
        getSpecProps example_unmarshal (xv_Schema vr) = Err e0 /\
        ForCompositeResourceClaim example_unmarshal example_claim_columns
          example_claim_spec_props example_status_props quote_ascii empty_heap named_malformed_xrd
        = (h', Err (EWrap e0 errGetSpecProps))
  | Some err =>
      ForCompositeResourceClaim example_unmarshal example_claim_columns
        example_claim_spec_props example_status_props quote_ascii empty_heap named_malformed_xrd
      = (empty_heap, Err (EWrap err errInvalidClaimNames))
  end).
Proof.
  assert (Hf : exists vr e, In vr (Versions (xrd_Spec named_malformed_xrd)) /\
     getSpecProps example_unmarshal (xv_Schema vr) = Err e).
  { exists (example_version "v1beta1" true (Some "")),
      (EWrap (EMsg "unexpected end of JSON input") errParseValidation).
    split; [simpl; right; left; reflexivity|vm_compute; reflexivity]. }
  split; [exact Hf|].
  exact (decode_failure_aborts example_unmarshal example_columns example_claim_columns
           example_spec_props example_claim_spec_props example_status_props
           quote_ascii empty_heap named_malformed_xrd Hf).
Defined.

(** C6 refuted for the claim entry point: without claim names, a malformed
    schema is not what [ForCompositeResourceClaim] reports. *)
Lemma claim_path_reports_names_not_decode :
  getSpecProps example_unmarshal (Some "")
    = Err (EWrap (EMsg "unexpected end of JSON input") errParseValidation) /\
  snd (ForCompositeResourceClaim example_unmarshal example_claim_columns
         example_claim_spec_props example_status_props quote_ascii empty_heap unnamed_malformed_xrd)
    = Err (EWrap (EMsg errMissingClaimNames) errInvalidClaimNames) /\
  snd (ForCompositeResourceClaim example_unmarshal example_claim_columns
         example_claim_spec_props example_status_props quote_ascii empty_heap unnamed_malformed_xrd)
    <> Err (EWrap (EWrap (EMsg "unexpected end of JSON input") errParseValidation) errGetSpecProps).
Proof. vm_compute. split; [reflexivity|split; [reflexivity|discriminate]]. Qed.

(** Witness of C8: [well_formed_xrd] from the empty heap. *)
Lemma claim_crd_identity_witness :
  exists h' crd,
    ForCompositeResourceClaim example_unmarshal example_claim_columns example_claim_spec_props
      example_status_props quote_ascii empty_heap well_formed_xrd = (h', Ok crd) /\
    om_Name (crd_Meta crd) = Plural example_claim_names ++ "." ++ Group (xrd_Spec well_formed_xrd) /\
    crd_Scope (crd_Spec crd) = NamespaceScoped /\
    crd_Names (crd_Spec crd) =
      MkNames (Plural example_claim_names) (Singular example_claim_names)
        (ShortNames example_claim_names) (Kind example_claim_names)
        (ListKind example_claim_names) (Categories (crd_Names (crd_Spec crd))) /\
    slice_read (h_str h') (Categories (crd_Names (crd_Spec crd)))
      = (slice_read (h_str empty_heap) (Categories example_claim_names) ++ [Some CategoryClaim])%list.
Proof.
  apply (claim_crd_identity example_unmarshal example_claim_columns example_claim_spec_props
           example_status_props quote_ascii empty_heap well_formed_xrd example_claim_names).
  - reflexivity.
  - discriminate.
  - discriminate.
  - intros _. discriminate.
  - intros _. discriminate.
  - vm_compute. reflexivity.
Defined.

(** C8 refuted: the generated names are not the claim names, since the
    category list gains "claim". *)
Lemma claim_names_gain_category :
  match snd (ForCompositeResourceClaim example_unmarshal example_claim_columns
               example_claim_spec_props example_status_props quote_ascii empty_heap
               (example_xrd (Some example_claim_names) [])) with
  | Ok crd =>
      om_Name (crd_Meta crd) = "postgresqlinstances.database.example.org" /\
      crd_Names (crd_Spec crd) <> example_claim_names /\
      Categories (crd_Names (crd_Spec crd)) = MkSlice 0 1 1 /\
      Categories example_claim_names = nil_slice
  | _ => False
  end.
Proof. vm_compute. split; [reflexivity|split; [discriminate|split; reflexivity]]. Qed.

(** Witness of X1: [well_formed_xrd] from the empty heap. *)
Lemma composite_crd_identity_witness :
  schemas_decode example_unmarshal (Versions (xrd_Spec well_formed_xrd)) = true /\
  exists h' crd,
    ForCompositeResource example_unmarshal example_columns example_spec_props
      example_status_props empty_heap well_formed_xrd = (h', Ok crd) /\
    crd_Meta crd = MkObjectMeta (om_Name (xrd_Meta well_formed_xrd)) ""
                     (om_Labels (xrd_Meta well_formed_xrd))
                     (om_Annotations (xrd_Meta well_formed_xrd)) [controller_ref well_formed_xrd] /\
    om_OwnerReferences (crd_Meta crd) =
      [MkOwnerReference "apiextensions.crossplane.io/v1alpha1" "CompositeResourceDefinition"
         (om_Name (xrd_Meta well_formed_xrd)) (om_UID (xrd_Meta well_formed_xrd)) (Some true) None] /\
    crd_Scope (crd_Spec crd) = ClusterScoped /\
    crd_Group (crd_Spec crd) = Group (xrd_Spec well_formed_xrd) /\
    crd_Names (crd_Spec crd) =
      MkNames (Plural example_names) (Singular example_names) (ShortNames example_names)
        (Kind example_names) (ListKind example_names) (Categories (crd_Names (crd_Spec crd))) /\
    slice_read (h_str h') (Categories (crd_Names (crd_Spec crd)))
      = (slice_read (h_str empty_heap) (Categories example_names) ++ [Some CategoryComposite])%list.
Proof.
  assert (Hd : schemas_decode example_unmarshal (Versions (xrd_Spec well_formed_xrd)) = true)
    by (vm_compute; reflexivity).
  split; [exact Hd|].
  exact (composite_crd_identity example_unmarshal example_columns example_spec_props
           example_status_props empty_heap well_formed_xrd Hd).
Defined.

(** Witness of X2: [well_formed_xrd] from the empty heap. *)
Lemma composite_and_claim_agree_witness :
  validateClaimNames quote_ascii well_formed_xrd = None /\
  schemas_decode example_unmarshal (Versions (xrd_Spec well_formed_xrd)) = true /\
  exists h1 crd1 h2 crd2,
    ForCompositeResource example_unmarshal example_columns example_spec_props
      example_status_props empty_heap well_formed_xrd = (h1, Ok crd1) /\
    ForCompositeResourceClaim example_unmarshal example_claim_columns
      example_claim_spec_props example_status_props quote_ascii empty_heap well_formed_xrd = (h2, Ok crd2) /\
    om_Labels (crd_Meta crd1) = om_Labels (crd_Meta crd2) /\
    om_Annotations (crd_Meta crd1) = om_Annotations (crd_Meta crd2) /\
    om_OwnerReferences (crd_Meta crd1) = om_OwnerReferences (crd_Meta crd2) /\
    crd_Group (crd_Spec crd1) = crd_Group (crd_Spec crd2) /\
    length (crd_Versions (crd_Spec crd1)) = length (crd_Versions (crd_Spec crd2)) /\
    forall i cv1 cv2,
      crd_Versions (crd_Spec crd1) !! i = Some cv1 ->
      crd_Versions (crd_Spec crd2) !! i = Some cv2 ->
      cv_Name cv1 = cv_Name cv2 /\ cv_Served cv1 = cv_Served cv2 /\
      cv_Storage cv1 = cv_Storage cv2 /\
      exists props1 props2 common,
        cv_Schema cv1 = MkJSONSchemaProps "object" (Some props1) /\
        cv_Schema cv2 = MkJSONSchemaProps "object" (Some props2) /\
        (forall k, k <> "spec" -> props1 !! k = props2 !! k) /\
        props1 !! "spec" = Some (MkJSONSchemaProps "object" (Some (example_spec_props ∪ common))) /\
        props2 !! "spec" = Some (MkJSONSchemaProps "object" (Some (example_claim_spec_props ∪ common))).
Proof.
  assert (Hv : validateClaimNames quote_ascii well_formed_xrd = None) by (vm_compute; reflexivity).
  assert (Hd : schemas_decode example_unmarshal (Versions (xrd_Spec well_formed_xrd)) = true)
    by (vm_compute; reflexivity).
  split; [exact Hv|]. split; [exact Hd|].
  exact (composite_and_claim_agree example_unmarshal example_columns example_claim_columns
           example_spec_props example_claim_spec_props example_status_props
           quote_ascii empty_heap well_formed_xrd Hv Hd).
Defined.

(** Witness of X5: [columns_xrd] on [columns_heap]; the composite's two
    synthesized columns outgrow both arrays, the claim's one column fits the
    spare cell of the second. *)
Lemma printer_columns_appended_witness :
  columns_allocated (h_next columns_heap) (Versions (xrd_Spec columns_xrd)) = true /\
  columns_separate (Versions (xrd_Spec columns_xrd)) = true /\
  (forall h' crd,
     ForCompositeResource example_unmarshal example_columns example_spec_props
       example_status_props columns_heap columns_xrd = (h', Ok crd) ->
     Forall2 (fun vr cv =>
       slice_read (h_col h') (cv_AdditionalPrinterColumns cv)
       = (slice_read (h_col columns_heap) (xv_AdditionalPrinterColumns vr)
            ++ (Some <$> example_columns))%list)
       (Versions (xrd_Spec columns_xrd)) (crd_Versions (crd_Spec crd))) /\
  (forall h' crd,
     ForCompositeResourceClaim example_unmarshal example_claim_columns
       example_claim_spec_props example_status_props quote_ascii columns_heap columns_xrd = (h', Ok crd) ->
     Forall2 (fun vr cv =>
       slice_read (h_col h') (cv_AdditionalPrinterColumns cv)
       = (slice_read (h_col columns_heap) (xv_AdditionalPrinterColumns vr)
            ++ (Some <$> example_claim_columns))%list)
       (Versions (xrd_Spec columns_xrd)) (crd_Versions (crd_Spec crd))).
Proof.
  assert (Hal : columns_allocated (h_next columns_heap) (Versions (xrd_Spec columns_xrd)) = true)
    by (vm_compute; reflexivity).
  assert (Hsep : columns_separate (Versions (xrd_Spec columns_xrd)) = true)
    by (vm_compute; reflexivity).
  split; [exact Hal|]. split; [exact Hsep|].
  exact (printer_columns_appended example_unmarshal example_columns example_claim_columns
           example_spec_props example_claim_spec_props example_status_props
           quote_ascii columns_heap columns_xrd Hal Hsep).
Defined.

(** X8: conditions after the first one of type "Established" never change
    [IsEstablished]; when the first list has no such condition, the result
    is decided by the second list alone. *)
Theorem IsEstablished_app (cs ds : list CustomResourceDefinitionCondition) :
  IsEstablished (cs ++ ds) =
  if existsb (fun c => String.eqb (cond_Type c) Established) cs
  then IsEstablished cs else IsEstablished ds.
Proof.
  induction cs as [|c cs IH]; simpl; [reflexivity|].
  destruct (String.eqb (cond_Type c) Established); simpl; [reflexivity|exact IH].
Qed.
